(** * Persona gateway ([web/src/app/admin/personas/lib.ts])

    A shallow embedding of the browser-side helpers that create, update and
    delete a persona together with its default prompt, and of the helper that
    builds the query string of the prompt explorer.

    The model has three layers:
    - [JS]: the fragment of the language the helpers rely on (UTF-16 strings,
      values, property read, truthiness, [JSON.stringify],
      [encodeURIComponent]);
    - [Net]: [fetch] as an effect: a promise is a function of the requests
      issued so far, returning a completion and the extended request log;
    - [Lib]: the functions of [lib.ts], in source order.
    [Spec] holds the vocabulary of the properties and [Samples] the inputs
    on which they are exercised; the properties follow, one part per
    operation.

    Numbers are the integral ones ([Z]); fractional numbers, NaN and the
    infinities are outside the model. A number is written in decimal, which
    is what the engine does for a safe integer (of magnitude at most
    2^53 - 1); what is proved of the digits themselves is stated for safe
    integers. *)

From Stdlib Require Import ZArith List String Ascii Bool Lia.
From Stdlib Require Import DecimalString DecimalPos DecimalZ.
Import ListNotations.

Local Open Scope Z_scope.

(* ===================================================================== *)
(** ** The language fragment *)
(* ===================================================================== *)

Module JS.

(** A string is a sequence of UTF-16 code units. *)
Definition jsstring := list Z.

(** An ASCII literal of the source, as code units. *)
Definition lit (s : string) : jsstring :=
  map (fun a => Z.of_N (N_of_ascii a)) (list_ascii_of_string s).

Fixpoint str_eqb (a b : jsstring) : bool :=
  match a, b with
  | [], [] => true
  | x :: a', y :: b' => (x =? y) && str_eqb a' b'
  | _, _ => false
  end.

(** The errors that a helper of [lib.ts] can meet. *)
Inductive error : Type :=
| SyntaxError   (* body is not JSON *)
| TypeError     (* property read on null or undefined; failed fetch *)
| URIError.     (* unpaired surrogate given to encodeURIComponent *)

(** Values: [undefined] and the values of JSON. The property list of an
    object is in insertion order and has distinct keys. *)
#[warnings="-register-all"]
Inductive jsval : Type :=
| JUndefined
| JNull
| JBool (b : bool)
| JNum (n : Z)
| JStr (s : jsstring)
| JArr (elems : list jsval)
| JObj (fields : list (jsstring * jsval)).

Fixpoint assoc (k : jsstring) (fields : list (jsstring * jsval)) : option jsval :=
  match fields with
  | [] => None
  | (k', v) :: rest => if str_eqb k k' then Some v else assoc k rest
  end.

(** [o.k] for an object literal built by the helpers. *)
Definition field (k : string) (o : jsval) : jsval :=
  match o with
  | JObj fields => match assoc (lit k) fields with Some v => v | None => JUndefined end
  | _ => JUndefined
  end.

(** [v.id]: reading a property of [null] or [undefined] throws; a primitive
    or an array has no [id]; an object gives its own [id] or [undefined]. *)
Definition get_id (v : jsval) : error + jsval :=
  match v with
  | JUndefined | JNull => inl TypeError
  | JObj fields =>
      inr (match assoc (lit "id") fields with Some x => x | None => JUndefined end)
  | _ => inr JUndefined
  end.

(** ToBoolean. *)
Definition truthy (v : jsval) : bool :=
  match v with
  | JUndefined | JNull => false
  | JBool b => b
  | JNum n => negb (n =? 0)
  | JStr s => match s with [] => false | _ => true end
  | JArr _ | JObj _ => true
  end.

(** [v !== null]. *)
Definition strict_neq_null (v : jsval) : bool :=
  match v with JNull => false | _ => true end.

(** Number::toString for an integral number: its decimal digits. This is
    the engine's text for a safe integer; a larger number is a double, which
    the engine may round or write with an exponent, and is not modelled. *)
Definition Number_toString (n : Z) : jsstring :=
  lit (NilZero.string_of_int (Z.to_int n)).

Definition Boolean_toString (b : bool) : jsstring :=
  if b then lit "true" else lit "false".

(** *** Surrogates *)

Definition is_leading_surrogate (c : Z) : bool := (0xD800 <=? c) && (c <=? 0xDBFF).
Definition is_trailing_surrogate (c : Z) : bool := (0xDC00 <=? c) && (c <=? 0xDFFF).

(** UTF16SurrogatePairToCodePoint. *)
Definition surrogate_pair_to_code_point (lead trail : Z) : Z :=
  (lead - 0xD800) * 0x400 + (trail - 0xDC00) + 0x10000.

(** *** Hexadecimal *)

Definition hex_digit (upper : bool) (d : Z) : Z :=
  if d <? 10 then 48 + d else (if upper then 55 else 87) + d.

(** *** JSON.stringify *)

(** [\uXXXX] with lower-case digits (UnicodeEscape). *)
Definition unicode_escape (c : Z) : jsstring :=
  lit "\u" ++ [hex_digit false ((c / 4096) mod 16); hex_digit false ((c / 256) mod 16);
               hex_digit false ((c / 16) mod 16); hex_digit false (c mod 16)].

(** The body of QuoteJSONString: the escapes of the code units, with
    surrogate pairs kept and unpaired surrogates escaped. *)
Fixpoint quote_units (s : jsstring) : jsstring :=
  match s with
  | [] => []
  | c :: rest =>
      if c =? 8 then lit "\b" ++ quote_units rest
      else if c =? 9 then lit "\t" ++ quote_units rest
      else if c =? 10 then lit "\n" ++ quote_units rest
      else if c =? 12 then lit "\f" ++ quote_units rest
      else if c =? 13 then lit "\r" ++ quote_units rest
      else if c =? 34 then [92; 34] ++ quote_units rest
      else if c =? 92 then [92; 92] ++ quote_units rest
      else if c <? 32 then unicode_escape c ++ quote_units rest
      else if is_leading_surrogate c then
        match rest with
        | d :: rest' =>
            if is_trailing_surrogate d then c :: d :: quote_units rest'
            else unicode_escape c ++ quote_units rest
        | [] => unicode_escape c
        end
      else if is_trailing_surrogate c then unicode_escape c ++ quote_units rest
      else c :: quote_units rest
  end.

Definition QuoteJSONString (s : jsstring) : jsstring :=
  [34] ++ quote_units s ++ [34].

Fixpoint join (sep : jsstring) (parts : list jsstring) : jsstring :=
  match parts with
  | [] => []
  | [p] => p
  | p :: rest => p ++ sep ++ join sep rest
  end.

(** SerializeJSONProperty without replacer or indentation: [None] is the
    [undefined] result. An [undefined] array element is written [null], an
    [undefined] property is left out. *)
Fixpoint JSON_stringify (v : jsval) : option jsstring :=
  match v with
  | JUndefined => None
  | JNull => Some (lit "null")
  | JBool b => Some (Boolean_toString b)
  | JNum n => Some (Number_toString n)
  | JStr s => Some (QuoteJSONString s)
  | JArr elems =>
      Some (lit "[" ++
            join (lit ",")
              (map (fun x => match JSON_stringify x with
                             | Some t => t
                             | None => lit "null"
                             end) elems) ++
            lit "]")
  | JObj fields =>
      Some (lit "{" ++
            join (lit ",")
              (flat_map (fun kv => match JSON_stringify (snd kv) with
                                   | Some t => [QuoteJSONString (fst kv) ++ lit ":" ++ t]
                                   | None => []
                                   end) fields) ++
            lit "}")
  end.

(** *** encodeURIComponent *)

(** The unreserved set of encodeURIComponent: letters, digits and
    [- _ . ! ~ * ' ( )]. *)
Definition uri_unreserved (c : Z) : bool :=
  ((65 <=? c) && (c <=? 90)) || ((97 <=? c) && (c <=? 122)) ||
  ((48 <=? c) && (c <=? 57)) ||
  existsb (Z.eqb c) (lit "-_.!~*'()").

(** The UTF-8 octets of a code point. *)
Definition utf8_octets (cp : Z) : list Z :=
  if cp <? 0x80 then [cp]
  else if cp <? 0x800 then
    [Z.lor 0xC0 (Z.shiftr cp 6); Z.lor 0x80 (Z.land cp 0x3F)]
  else if cp <? 0x10000 then
    [Z.lor 0xE0 (Z.shiftr cp 12); Z.lor 0x80 (Z.land (Z.shiftr cp 6) 0x3F);
     Z.lor 0x80 (Z.land cp 0x3F)]
  else
    [Z.lor 0xF0 (Z.shiftr cp 18); Z.lor 0x80 (Z.land (Z.shiftr cp 12) 0x3F);
     Z.lor 0x80 (Z.land (Z.shiftr cp 6) 0x3F); Z.lor 0x80 (Z.land cp 0x3F)].

(** [%XX] with upper-case digits. *)
Definition percent_octet (b : Z) : jsstring :=
  [37; hex_digit true (b / 16); hex_digit true (b mod 16)].

Definition percent_code_point (cp : Z) : jsstring :=
  flat_map percent_octet (utf8_octets cp).

(** Encode(string, unreserved): an unreserved unit is copied, any other code
    point is written as the escapes of its UTF-8 octets, and an unpaired
    surrogate throws. *)
Fixpoint Encode (s : jsstring) : error + jsstring :=
  match s with
  | [] => inr []
  | c :: rest =>
      if uri_unreserved c then
        match Encode rest with inr r => inr (c :: r) | inl e => inl e end
      else if is_leading_surrogate c then
        match rest with
        | d :: rest' =>
            if is_trailing_surrogate d then
              match Encode rest' with
              | inr r => inr (percent_code_point (surrogate_pair_to_code_point c d) ++ r)
              | inl e => inl e
              end
            else inl URIError
        | [] => inl URIError
        end
      else if is_trailing_surrogate c then inl URIError
      else
        match Encode rest with
        | inr r => inr (percent_code_point c ++ r)
        | inl e => inl e
        end
  end.

(** ToString of a value; an array is the comma-joined ToString of its
    elements, with [null] and [undefined] written as the empty string. *)
Fixpoint ToString (v : jsval) : jsstring :=
  match v with
  | JUndefined => lit "undefined"
  | JNull => lit "null"
  | JBool b => Boolean_toString b
  | JNum n => Number_toString n
  | JStr s => s
  | JArr elems =>
      join (lit ",")
        (map (fun x => match x with
                       | JUndefined | JNull => []
                       | _ => ToString x
                       end) elems)
  | JObj _ => lit "[object Object]"
  end.

Definition encodeURIComponent (v : jsval) : error + jsstring :=
  Encode (ToString v).

End JS.

Import JS.

(* ===================================================================== *)
(** ** fetch *)
(* ===================================================================== *)

Module Net.

Inductive Method : Type := GET | POST | PATCH | DELETE.

(** What [fetch(url, init)] sends; [fetch(url)] is a GET without headers
    or body. *)
Record Request : Type := mkRequest {
  method : Method;
  url : jsstring;
  headers : list (jsstring * jsstring);
  body : option jsstring
}.

(** What the helpers read of a response: its status, and what [json()]
    resolves to ([None]: the body is not JSON, [json()] rejects). *)
Record Response : Type := mkResponse {
  status : Z;
  body_json : option jsval
}.

(** [response.ok]: the status is in the range 200-299. *)
Definition ok (r : Response) : bool :=
  (200 <=? status r) && (status r <=? 299).

Inductive completion (A : Type) : Type :=
| Fulfilled (a : A)
| Rejected (e : error).
Arguments Fulfilled {A} a.
Arguments Rejected {A} e.

(** The other side: how a request is answered, given the requests issued
    before it. *)
Definition Network := list Request -> Request -> completion Response.

(** A promise, run against a network from a request log: its completion
    and the log extended with the requests it issued, in order. *)
Definition Promise (A : Type) : Type :=
  Network -> list Request -> completion A * list Request.

Definition resolve {A} (a : A) : Promise A :=
  fun _ log => (Fulfilled a, log).

Definition reject {A} (e : error) : Promise A :=
  fun _ log => (Rejected e, log).

(** [await p] followed by the rest of the async function. *)
Definition await {A B} (p : Promise A) (k : A -> Promise B) : Promise B :=
  fun net log =>
    match p net log with
    | (Fulfilled a, log') => k a net log'
    | (Rejected e, log') => (Rejected e, log')
    end.

Definition fetch (q : Request) : Promise Response :=
  fun net log => (net log q, log ++ [q]).

(** [response.json()]. *)
Definition json (r : Response) : Promise jsval :=
  match body_json r with
  | Some v => resolve v
  | None => reject SyntaxError
  end.

(** An expression that may throw, inside an async function. *)
Definition eval {A} (x : error + A) : Promise A :=
  match x with
  | inr a => resolve a
  | inl e => reject e
  end.

End Net.

Import Net.

Notation "x <- p ;; k" := (await p (fun x => k))
  (at level 61, p at next level, right associativity).

(* ===================================================================== *)
(** ** lib.ts *)
(* ===================================================================== *)

Module PersonaCreationRequest.
Record t : Type := mk {
  name : jsstring;
  description : jsstring;
  system_prompt : jsstring;
  task_prompt : jsstring;
  document_set_ids : list Z;
  num_chunks : option Z;
  llm_relevance_filter : option bool;
  llm_model_version_override : option jsstring
}.
End PersonaCreationRequest.

Module PersonaUpdateRequest.
Record t : Type := mk {
  id : Z;
  existingPromptId : option Z;
  name : jsstring;
  description : jsstring;
  system_prompt : jsstring;
  task_prompt : jsstring;
  document_set_ids : list Z;
  num_chunks : option Z;
  llm_relevance_filter : option bool;
  llm_model_version_override : option jsstring
}.
End PersonaUpdateRequest.

Module Lib.

Module C := PersonaCreationRequest.
Module U := PersonaUpdateRequest.

(** [PersonaCreationRequest | PersonaUpdateRequest] and its common fields. *)
Definition AnyRequest : Type := (C.t + U.t)%type.

Definition name (r : AnyRequest) :=
  match r with inl c => C.name c | inr u => U.name u end.
Definition description (r : AnyRequest) :=
  match r with inl c => C.description c | inr u => U.description u end.
Definition document_set_ids (r : AnyRequest) :=
  match r with inl c => C.document_set_ids c | inr u => U.document_set_ids u end.
Definition num_chunks (r : AnyRequest) :=
  match r with inl c => C.num_chunks c | inr u => U.num_chunks u end.
Definition llm_relevance_filter (r : AnyRequest) :=
  match r with inl c => C.llm_relevance_filter c | inr u => U.llm_relevance_filter u end.
Definition llm_model_version_override (r : AnyRequest) :=
  match r with
  | inl c => C.llm_model_version_override c
  | inr u => U.llm_model_version_override u
  end.

(** [T | null] as a value. *)
Definition nullable {A} (inj : A -> jsval) (x : option A) : jsval :=
  match x with Some a => inj a | None => JNull end.

Definition json_headers : list (jsstring * jsstring) :=
  [(lit "Content-Type", lit "application/json")].

Definition promptNameFromPersonaName (personaName : jsstring) : jsstring :=
  lit "default-prompt__" ++ personaName.

(** The object literal that [createPrompt] and [updatePrompt] serialise. *)
Definition prompt_body (personaName systemPrompt taskPrompt : jsstring) : jsval :=
  JObj [ (lit "name", JStr (promptNameFromPersonaName personaName));
         (lit "description", JStr (lit "Default prompt for persona " ++ personaName));
         (lit "shared", JBool true);
         (lit "system_prompt", JStr systemPrompt);
         (lit "task_prompt", JStr taskPrompt) ].

Definition createPrompt_request (personaName systemPrompt taskPrompt : jsstring)
  : Request :=
  {| method := POST;
     url := lit "/api/prompt";
     headers := json_headers;
     body := JSON_stringify (prompt_body personaName systemPrompt taskPrompt) |}.

Definition createPrompt (personaName systemPrompt taskPrompt : jsstring)
  : Promise Response :=
  fetch (createPrompt_request personaName systemPrompt taskPrompt).

Definition updatePrompt_request (promptId : Z)
  (personaName systemPrompt taskPrompt : jsstring) : Request :=
  {| method := PATCH;
     url := lit "/api/prompt/" ++ Number_toString promptId;
     headers := json_headers;
     body := JSON_stringify (prompt_body personaName systemPrompt taskPrompt) |}.

Definition updatePrompt (promptId : Z)
  (personaName systemPrompt taskPrompt : jsstring) : Promise Response :=
  fetch (updatePrompt_request promptId personaName systemPrompt taskPrompt).

(** [promptId] is declared a number, but is whatever the caller read from
    the prompt response. *)
Definition buildPersonaAPIBody (creationRequest : AnyRequest) (promptId : jsval)
  : jsval :=
  JObj [ (lit "name", JStr (name creationRequest));
         (lit "description", JStr (description creationRequest));
         (lit "shared", JBool true);
         (lit "num_chunks", nullable JNum (num_chunks creationRequest));
         (lit "llm_relevance_filter",
            nullable JBool (llm_relevance_filter creationRequest));
         (lit "llm_filter_extraction", JBool false);
         (lit "recency_bias", JStr (lit "base_decay"));
         (lit "prompt_ids", JArr [promptId]);
         (lit "document_set_ids", JArr (map JNum (document_set_ids creationRequest)));
         (lit "llm_model_version_override",
            nullable JStr (llm_model_version_override creationRequest)) ].

(** The persona request of [createPersona]. *)
Definition createPersona_request (r : C.t) (promptId : jsval) : Request :=
  {| method := POST;
     url := lit "/api/admin/persona";
     headers := json_headers;
     body := JSON_stringify (buildPersonaAPIBody (inl r) promptId) |}.

Definition createPersona (personaCreationRequest : C.t)
  : Promise (Response * option Response) :=
  (* first create prompt *)
  createPromptResponse <-
    createPrompt (C.name personaCreationRequest)
                 (C.system_prompt personaCreationRequest)
                 (C.task_prompt personaCreationRequest) ;;
  promptId <-
    (if ok createPromptResponse
     then parsed <- json createPromptResponse ;; eval (get_id parsed)
     else resolve JNull) ;;
  createPersonaResponse <-
    (if strict_neq_null promptId
     then r <- fetch (createPersona_request personaCreationRequest promptId) ;;
          resolve (Some r)
     else resolve None) ;;
  resolve (createPromptResponse, createPersonaResponse).

(** The first half of [updatePersona]: the prompt call, and the
    [promptResponse] and [promptId] it leaves. *)
Definition updatePersona_prompt (personaUpdateRequest : U.t)
  : Promise (Response * jsval) :=
  match U.existingPromptId personaUpdateRequest with
  | Some existingPromptId =>
      promptResponse <-
        updatePrompt existingPromptId
                     (U.name personaUpdateRequest)
                     (U.system_prompt personaUpdateRequest)
                     (U.task_prompt personaUpdateRequest) ;;
      resolve (promptResponse, JNum existingPromptId)
  | None =>
      promptResponse <-
        createPrompt (U.name personaUpdateRequest)
                     (U.system_prompt personaUpdateRequest)
                     (U.task_prompt personaUpdateRequest) ;;
      promptId <-
        (if ok promptResponse
         then parsed <- json promptResponse ;; eval (get_id parsed)
         else resolve JNull) ;;
      resolve (promptResponse, promptId)
  end.

(** The persona request of [updatePersona]. *)
Definition updatePersona_request (r : U.t) (promptId : jsval) : Request :=
  {| method := PATCH;
     url := lit "/api/admin/persona/" ++ Number_toString (U.id r);
     headers := json_headers;
     body := JSON_stringify (buildPersonaAPIBody (inr r) promptId) |}.

Definition updatePersona (personaUpdateRequest : U.t)
  : Promise (Response * option Response) :=
  (* first update prompt *)
  prompt <- updatePersona_prompt personaUpdateRequest ;;
  let promptResponse := fst prompt in
  let promptId := snd prompt in
  updatePersonaResponse <-
    (if ok promptResponse && truthy promptId
     then r <- fetch (updatePersona_request personaUpdateRequest promptId) ;;
          resolve (Some r)
     else resolve None) ;;
  resolve (promptResponse, updatePersonaResponse).

Definition deletePersona_request (personaId : Z) : Request :=
  {| method := DELETE;
     url := lit "/api/admin/persona/" ++ Number_toString personaId;
     headers := [];
     body := None |}.

Definition deletePersona (personaId : Z) : Promise Response :=
  fetch (deletePersona_request personaId).

(** [Array.prototype.map] with a callback that may throw: the first throw
    ends the traversal. *)
Fixpoint Array_map {A B} (f : A -> error + B) (xs : list A) : error + list B :=
  match xs with
  | [] => inr []
  | x :: rest =>
      match f x with
      | inl e => inl e
      | inr y =>
          match Array_map f rest with
          | inl e => inl e
          | inr ys => inr (y :: ys)
          end
      end
  end.

(** The callback of [buildFinalPrompt]: the key is encoded, then the value. *)
Definition encode_entry (entry : jsstring * jsval) : error + jsstring :=
  match encodeURIComponent (JStr (fst entry)) with
  | inl e => inl e
  | inr k =>
      match encodeURIComponent (snd entry) with
      | inl e => inl e
      | inr v => inr (k ++ lit "=" ++ v)
      end
  end.

(** The query string of [buildFinalPrompt]; [Object.entries] lists the
    properties in the order of the literal. *)
Definition queryString (systemPrompt taskPrompt : jsstring) (retrievalDisabled : bool)
  : error + jsstring :=
  match Array_map encode_entry
          [ (lit "system_prompt", JStr systemPrompt);
            (lit "task_prompt", JStr taskPrompt);
            (lit "retrieval_disabled", JBool retrievalDisabled) ] with
  | inl e => inl e
  | inr parts => inr (join (lit "&") parts)
  end.

Definition buildFinalPrompt_request (queryString : jsstring) : Request :=
  {| method := GET;
     url := lit "/api/persona/utils/prompt-explorer?" ++ queryString;
     headers := [];
     body := None |}.

(** [buildFinalPrompt] is not async: it throws ([inl]) before any request
    is made, or returns the promise of its [fetch]. *)
Definition buildFinalPrompt (systemPrompt taskPrompt : jsstring)
  (retrievalDisabled : bool) : error + Promise Response :=
  match queryString systemPrompt taskPrompt retrievalDisabled with
  | inl e => inl e
  | inr qs => inr (fetch (buildFinalPrompt_request qs))
  end.

End Lib.

Import Lib.

(* ===================================================================== *)
(** ** Vocabulary of the properties *)
(* ===================================================================== *)

Module Spec.

(** The code points of a string, when every surrogate is paired. *)
Fixpoint code_points (s : jsstring) : option (list Z) :=
  match s with
  | [] => Some []
  | c :: rest =>
      if is_leading_surrogate c then
        match rest with
        | d :: rest' =>
            if is_trailing_surrogate d
            then option_map (cons (surrogate_pair_to_code_point c d)) (code_points rest')
            else None
        | [] => None
        end
      else if is_trailing_surrogate c then None
      else option_map (cons c) (code_points rest)
  end.

(** Percent-encoding of a text given by its code points: an unreserved
    character stands for itself, any other character is the [%XX] escapes
    of its UTF-8 octets. *)
Definition percent_encode (cps : list Z) : jsstring :=
  flat_map (fun cp => if uri_unreserved cp then [cp] else percent_code_point cp) cps.

(** The requests that a promise adds to the log. *)
Definition issued {A} (p : Promise A) (net : Network) (log : list Request)
  : list Request :=
  skipn (List.length log) (snd (p net log)).

Definition is_persona_create (q : Request) : bool :=
  match method q with POST => str_eqb (url q) (lit "/api/admin/persona") | _ => false end.

Definition is_prompt_create (q : Request) : bool :=
  match method q with POST => str_eqb (url q) (lit "/api/prompt") | _ => false end.

(** The body is the JSON text of a prompt whose name and description are
    those derived from [personaName], and which is shared. *)
Definition derived_prompt_body (personaName : jsstring) (q : Request) : Prop :=
  exists b,
    body q = JSON_stringify b /\
    field "name" b = JStr (lit "default-prompt__" ++ personaName) /\
    field "description" b = JStr (lit "Default prompt for persona " ++ personaName) /\
    field "shared" b = JBool true.

(** The body is the JSON text of a persona with a one-element [prompt_ids]. *)
Definition one_prompt_body (q : Request) : Prop :=
  exists b p, body q = JSON_stringify b /\ field "prompt_ids" b = JArr [p].

(** Whether a parsed body has an [id] field. Only an object can have one:
    [null], an array or a primitive has none. *)
Definition has_id_field (v : jsval) : bool :=
  match v with
  | JObj fields => match assoc (lit "id") fields with Some _ => true | None => false end
  | _ => false
  end.

(** [null] and [undefined], of which no property can be read. *)
Definition is_nullish (v : jsval) : bool :=
  match v with
  | JUndefined | JNull => true
  | _ => false
  end.

Fixpoint prefixb (p s : jsstring) : bool :=
  match p, s with
  | [], _ => true
  | x :: p', y :: s' => (x =? y) && prefixb p' s'
  | _ :: _, [] => false
  end.

(** A request of the two-step operations on a persona named [personaName]:
    a prompt request with the derived body, or a persona request that
    references one prompt. *)
Definition persona_step (personaName : jsstring) (q : Request) : Prop :=
  (prefixb (lit "/api/prompt") (url q) = true /\ derived_prompt_body personaName q) \/
  (prefixb (lit "/api/admin/persona") (url q) = true /\ one_prompt_body q).

(** How the completion of the second call ends a two-step operation. *)
Definition paired (first : Response) (second : completion Response)
  : completion (Response * option Response) :=
  match second with
  | Fulfilled r => Fulfilled (first, Some r)
  | Rejected e => Rejected e
  end.

End Spec.

Import Spec.

(** *** Sample inputs *)

Module Samples.

Definition creation : C.t :=
  C.mk (lit "Bot") (lit "A bot") (lit "You are a bot.") (lit "Answer.")
       [1; 2] (Some 5) None None.

Definition update (existingPromptId : option Z) : U.t :=
  U.mk 3 existingPromptId (lit "Bot") (lit "A bot") (lit "You are a bot.")
       (lit "Answer.") [1; 2] (Some 5) None None.

(** A network that answers every request alike. *)
Definition always (r : Response) : Network := fun _ _ => Fulfilled r.

Definition with_id (n : Z) : Response :=
  mkResponse 200 (Some (JObj [(lit "id", JNum n)])).

Definition no_id : Response := mkResponse 200 (Some (JObj [])).
Definition not_json : Response := mkResponse 200 None.
Definition server_error : Response := mkResponse 500 None.

End Samples.

(** *** Further vocabulary *)

Module Shape.

(** A UTF-16 code unit. *)
Definition is_code_unit (c : Z) : Prop := 0 <= c < 0x10000.

(** What the engine leaves in an encoded component: an unreserved
    character or the percent sign. *)
Definition uri_safe (c : Z) : bool := uri_unreserved c || (c =? 37).

(** Number.isSafeInteger: an integer of magnitude at most 2^53 - 1, which
    the engine holds and writes exactly. *)
Definition is_safe_integer (n : Z) : Prop :=
  - 9007199254740991 <= n <= 9007199254740991.

(** A decimal digit, as a code unit. *)
Definition is_digit (c : Z) : bool := (48 <=? c) && (c <=? 57).

Definition is_hex_digit (c : Z) : bool :=
  is_digit c || ((97 <=? c) && (c <=? 102)) || ((65 <=? c) && (c <=? 70)).

(** The letters that may follow a backslash in a JSON string, [u] apart:
    the quote, the backslash, the slash and [b f n r t]. *)
Definition is_simple_escape (c : Z) : bool :=
  existsb (Z.eqb c) [34; 92; 47; 98; 102; 110; 114; 116].

(** The grammar of the inside of a JSON string token: escapes, and any unit
    that is neither a quote, nor a backslash, nor a control character. *)
Fixpoint json_string_chars (t : jsstring) : bool :=
  match t with
  | [] => true
  | c :: rest =>
      if c =? 92 then
        match rest with
        | [] => false
        | e :: rest' =>
            if e =? 117 then
              match rest' with
              | h1 :: h2 :: h3 :: h4 :: rest'' =>
                  is_hex_digit h1 && is_hex_digit h2 && is_hex_digit h3 &&
                  is_hex_digit h4 && json_string_chars rest''
              | _ => false
              end
            else is_simple_escape e && json_string_chars rest'
        end
      else if c =? 34 then false
      else if c <? 32 then false
      else json_string_chars rest
  end.

(** A member of an object, as written: the quoted key, a colon and the
    text of the value. *)
Definition member (k : string) (text : jsstring) : jsstring :=
  [34] ++ lit k ++ [34; 58] ++ text.

(** The text of a [T | null] value. *)
Definition or_null {A} (f : A -> jsstring) (x : option A) : jsstring :=
  match x with Some a => f a | None => lit "null" end.

(** The text of an array element: [undefined] is written [null]. *)
Definition element_text (v : jsval) : jsstring :=
  match JSON_stringify v with Some t => t | None => lit "null" end.

(** The values that are not [null] and yet not truthy. *)
Definition falsy_not_null (p : jsval) : Prop :=
  p = JUndefined \/ p = JBool false \/ p = JNum 0 \/ p = JStr [].

Definition is_prompt_url (q : Request) : bool := prefixb (lit "/api/prompt") (url q).
Definition is_persona_url (q : Request) : bool :=
  prefixb (lit "/api/admin/persona") (url q).

End Shape.

Import Shape.

Module MoreSamples.

Definition null_body : Response := mkResponse 200 (Some JNull).

(** No request is answered. *)
Definition offline : Network := fun _ _ => Rejected TypeError.

(** The prompt endpoint answers, the persona endpoint is unreachable. *)
Definition persona_down (r : Response) : Network :=
  fun _ q => if is_prompt_url q then Fulfilled r else Rejected TypeError.

End MoreSamples.

(* ===================================================================== *)
(** ** How the operations run *)
(* ===================================================================== *)

Section Runs.

Variable net : Network.
Variable log : list Request.

(** The three steps of [createPersona], case by case. *)
Lemma createPersona_run (r : C.t) :
  let q1 := createPrompt_request (C.name r) (C.system_prompt r) (C.task_prompt r) in
  createPersona r net log =
  match net log q1 with
  | Rejected e => (Rejected e, log ++ [q1])
  | Fulfilled r1 =>
      if ok r1 then
        match body_json r1 with
        | None => (Rejected SyntaxError, log ++ [q1])
        | Some v =>
            match get_id v with
            | inl e => (Rejected e, log ++ [q1])
            | inr p =>
                if strict_neq_null p then
                  let q2 := createPersona_request r p in
                  (paired r1 (net (log ++ [q1]) q2), log ++ [q1; q2])
                else (Fulfilled (r1, None), log ++ [q1])
            end
        end
      else (Fulfilled (r1, None), log ++ [q1])
  end.
Proof.
  intros q1. unfold createPersona, createPrompt, await, fetch. fold q1.
  destruct (net log q1) as [r1|e]; [|reflexivity].
  destruct (ok r1); [|reflexivity].
  unfold json. destruct (body_json r1) as [v|]; [|reflexivity].
  unfold resolve, eval. destruct (get_id v) as [e|p]; [reflexivity|].
  unfold resolve. destruct (strict_neq_null p); [|reflexivity].
  cbv zeta. rewrite <- app_assoc. cbn [app].
  destruct (net (log ++ [q1]) (createPersona_request r p)); reflexivity.
Qed.

(** The prompt step of [updatePersona]. *)
Lemma updatePersona_prompt_run (r : U.t) :
  updatePersona_prompt r net log =
  match U.existingPromptId r with
  | Some existing =>
      let q1 := updatePrompt_request existing (U.name r) (U.system_prompt r)
                  (U.task_prompt r) in
      match net log q1 with
      | Rejected e => (Rejected e, log ++ [q1])
      | Fulfilled r1 => (Fulfilled (r1, JNum existing), log ++ [q1])
      end
  | None =>
      let q1 := createPrompt_request (U.name r) (U.system_prompt r) (U.task_prompt r) in
      match net log q1 with
      | Rejected e => (Rejected e, log ++ [q1])
      | Fulfilled r1 =>
          if ok r1 then
            match body_json r1 with
            | None => (Rejected SyntaxError, log ++ [q1])
            | Some v =>
                match get_id v with
                | inl e => (Rejected e, log ++ [q1])
                | inr p => (Fulfilled (r1, p), log ++ [q1])
                end
            end
          else (Fulfilled (r1, JNull), log ++ [q1])
      end
  end.
Proof.
  unfold updatePersona_prompt.
  destruct (U.existingPromptId r) as [existing|]; cbv zeta.
  - unfold updatePrompt, await, fetch.
    destruct (net log _); reflexivity.
  - unfold createPrompt, await, fetch.
    destruct (net log _) as [r1|e]; [|reflexivity].
    destruct (ok r1); [|reflexivity].
    unfold json. destruct (body_json r1) as [v|]; [|reflexivity].
    unfold resolve, eval. destruct (get_id v); reflexivity.
Qed.

(** The persona step of [updatePersona], after the prompt step. *)
Lemma updatePersona_run (r : U.t) :
  updatePersona r net log =
  match updatePersona_prompt r net log with
  | (Rejected e, log1) => (Rejected e, log1)
  | (Fulfilled (r1, p), log1) =>
      if ok r1 && truthy p then
        let q2 := updatePersona_request r p in
        (paired r1 (net log1 q2), log1 ++ [q2])
      else (Fulfilled (r1, None), log1)
  end.
Proof.
  unfold updatePersona, await at 1.
  destruct (updatePersona_prompt r net log) as [[[r1 p]|e] log1]; [|reflexivity].
  cbn [fst snd]. unfold await, fetch, resolve.
  destruct (ok r1 && truthy p); [|reflexivity].
  cbv zeta. destruct (net log1 _); reflexivity.
Qed.

End Runs.

Lemma skipn_app_exact {A} (l new : list A) : skipn (List.length l) (l ++ new) = new.
Proof. induction l; [reflexivity | assumption]. Qed.

Lemma issued_eq {A} (p : Promise A) net log new :
  snd (p net log) = log ++ new -> issued p net log = new.
Proof. unfold issued. intros ->. apply skipn_app_exact. Qed.

(** Rewriting with the run lemmas, then with what is known of the network
    and of the response. *)
Ltac run_create :=
  rewrite createPersona_run; cbv zeta.
Ltac run_update :=
  rewrite updatePersona_run, updatePersona_prompt_run; cbv zeta.
Ltac known :=
  repeat match goal with
         | H : ?x = _ |- context [match ?x with _ => _ end] => rewrite H
         | H : ?x = _ |- context [if ?x then _ else _] => rewrite H
         end.

(* ===================================================================== *)
(** ** createPersona *)
(* ===================================================================== *)

(** C1, as the code has it. With the prompt response [r1] in hand,
    [createPersona] makes a persona-create call only if [r1] is ok and its
    body parsed as JSON. When [r1] is not ok, or the parsed body's [id] is
    [null], no persona call is made and [[r1, null]] is returned. When the
    [id] is a number the persona-create call is made and its completion
    paired with [r1]. When the body is not JSON nothing is returned: the
    promise rejects, without a persona call. *)
Theorem createPersona_guard (net : Network) (log : list Request) (r : C.t)
    (r1 : Response) :
  let q1 := createPrompt_request (C.name r) (C.system_prompt r) (C.task_prompt r) in
  net log q1 = Fulfilled r1 ->
  (ok r1 = false ->
     createPersona r net log = (Fulfilled (r1, None), log ++ [q1])) /\
  (forall v, ok r1 = true -> body_json r1 = Some v -> get_id v = inr JNull ->
     createPersona r net log = (Fulfilled (r1, None), log ++ [q1])) /\
  (forall v n, ok r1 = true -> body_json r1 = Some v -> get_id v = inr (JNum n) ->
     let q2 := createPersona_request r (JNum n) in
     createPersona r net log = (paired r1 (net (log ++ [q1]) q2), log ++ [q1; q2])) /\
  (ok r1 = true -> body_json r1 = None ->
     createPersona r net log = (Rejected SyntaxError, log ++ [q1])) /\
  (forall q, In q (issued (createPersona r) net log) -> is_persona_create q = true ->
     ok r1 = true /\ exists v, body_json r1 = Some v).
Proof.
  intros q1 Hnet. split; [|split; [|split; [|split]]].
  - intros Hok. run_create. fold q1. known. reflexivity.
  - intros v Hok Hbody Hid. run_create. fold q1. known. reflexivity.
  - intros v n Hok Hbody Hid. run_create. fold q1. known. reflexivity.
  - intros Hok Hbody. run_create. fold q1. known. reflexivity.
  - intros q. unfold issued. run_create. fold q1. known.
    assert (Hq1 : In q (skipn (List.length log) (log ++ [q1])) ->
                  is_persona_create q = true -> False).
    { rewrite skipn_app_exact. intros [<-|[]]. discriminate. }
    destruct (ok r1); cbn [snd]; [|intros Hin Hq; destruct (Hq1 Hin Hq)].
    destruct (body_json r1) as [v|]; cbn [snd]; [eauto|].
    intros Hin Hq. destruct (Hq1 Hin Hq).
Qed.

Lemma createPersona_guard_witness :
  createPersona Samples.creation (Samples.always (Samples.with_id 7)) [] =
    (Fulfilled (Samples.with_id 7, Some (Samples.with_id 7)),
     [createPrompt_request (lit "Bot") (lit "You are a bot.") (lit "Answer.");
      createPersona_request Samples.creation (JNum 7)]) /\
  createPersona Samples.creation (Samples.always Samples.server_error) [] =
    (Fulfilled (Samples.server_error, None),
     [createPrompt_request (lit "Bot") (lit "You are a bot.") (lit "Answer.")]).
Proof.
  split.
  - destruct (createPersona_guard (Samples.always (Samples.with_id 7)) []
                Samples.creation (Samples.with_id 7) eq_refl) as (_ & _ & H & _).
    exact (H _ 7 eq_refl eq_refl eq_refl).
  - destruct (createPersona_guard (Samples.always Samples.server_error) []
                Samples.creation Samples.server_error eq_refl) as (H & _).
    exact (H eq_refl).
Defined.

(** C1, as stated, fails: a prompt response that is ok but whose body is not
    JSON has yielded no id, yet no pair with a [null] second element comes
    back; the promise rejects. *)
Lemma createPersona_unparsed_body_no_pair :
  ok Samples.not_json = true /\
  body_json Samples.not_json = None /\
  createPersona Samples.creation (Samples.always Samples.not_json) [] =
  (Rejected SyntaxError,
   [createPrompt_request (lit "Bot") (lit "You are a bot.") (lit "Answer.")]).
Proof. repeat split. Qed.

(** C2. When the create-Prompt endpoint answers ok with the body [{id: 7}],
    [createPersona] issues, after the prompt call, exactly one persona-create
    call: a POST to [/api/admin/persona] whose body is the JSON text of a
    persona with [prompt_ids = [7]]; the answer to it is returned paired with
    the prompt response. *)
Theorem createPersona_prompt_id_7 (net : Network) (log : list Request) (r : C.t)
    (r1 : Response) :
  let q1 := createPrompt_request (C.name r) (C.system_prompt r) (C.task_prompt r) in
  let q2 := createPersona_request r (JNum 7) in
  net log q1 = Fulfilled r1 ->
  ok r1 = true ->
  body_json r1 = Some (JObj [(lit "id", JNum 7)]) ->
  issued (createPersona r) net log = [q1; q2] /\
  filter is_persona_create (issued (createPersona r) net log) = [q2] /\
  method q2 = POST /\
  url q2 = lit "/api/admin/persona" /\
  body q2 = JSON_stringify (buildPersonaAPIBody (inl r) (JNum 7)) /\
  field "prompt_ids" (buildPersonaAPIBody (inl r) (JNum 7)) = JArr [JNum 7] /\
  (forall r2, net (log ++ [q1]) q2 = Fulfilled r2 ->
     fst (createPersona r net log) = Fulfilled (r1, Some r2)).
Proof.
  intros q1 q2 Hnet Hok Hbody.
  assert (Hrun : createPersona r net log =
                 (paired r1 (net (log ++ [q1]) q2), log ++ [q1; q2])).
  { run_create. fold q1. known. reflexivity. }
  assert (Hissued : issued (createPersona r) net log = [q1; q2]).
  { apply issued_eq. rewrite Hrun. reflexivity. }
  rewrite Hissued. repeat split.
  intros r2 Hr2. rewrite Hrun. cbn [fst]. rewrite Hr2. reflexivity.
Qed.

Lemma createPersona_prompt_id_7_witness :
  fst (createPersona Samples.creation (Samples.always (Samples.with_id 7)) []) =
  Fulfilled (Samples.with_id 7, Some (Samples.with_id 7)).
Proof.
  destruct (createPersona_prompt_id_7 (Samples.always (Samples.with_id 7)) []
              Samples.creation (Samples.with_id 7) eq_refl eq_refl eq_refl)
    as (_ & _ & _ & _ & _ & _ & H).
  exact (H (Samples.with_id 7) eq_refl).
Defined.

(* ===================================================================== *)
(** ** updatePersona *)
(* ===================================================================== *)

(** C3, as the code has it. With [existingPromptId] present, [updatePersona]
    first issues a PATCH to [/api/prompt/{existingPromptId}] and never a
    prompt-create; [promptId] is [existingPromptId] whatever the answer. If
    the answer is ok and [existingPromptId] is not 0, the persona-update is
    issued with [prompt_ids = [existingPromptId]]; if [existingPromptId] is
    0 the persona-update is skipped and [[promptResponse, null]] returned. *)
Theorem updatePersona_existing_prompt (net : Network) (log : list Request)
    (r : U.t) (existing : Z) :
  U.existingPromptId r = Some existing ->
  let q1 := updatePrompt_request existing (U.name r) (U.system_prompt r)
              (U.task_prompt r) in
  let q2 := updatePersona_request r (JNum existing) in
  method q1 = PATCH /\
  url q1 = lit "/api/prompt/" ++ Number_toString existing /\
  (exists rest, issued (updatePersona r) net log = q1 :: rest) /\
  filter is_prompt_create (issued (updatePersona r) net log) = [] /\
  (forall r1, net log q1 = Fulfilled r1 ->
     updatePersona_prompt r net log = (Fulfilled (r1, JNum existing), log ++ [q1])) /\
  (forall r1, net log q1 = Fulfilled r1 -> ok r1 = true -> existing <> 0 ->
     updatePersona r net log = (paired r1 (net (log ++ [q1]) q2), log ++ [q1; q2]) /\
     field "prompt_ids" (buildPersonaAPIBody (inr r) (JNum existing)) =
       JArr [JNum existing]) /\
  (forall r1, net log q1 = Fulfilled r1 -> ok r1 = true -> existing = 0 ->
     updatePersona r net log = (Fulfilled (r1, None), log ++ [q1])).
Proof.
  intros Hex q1 q2.
  assert (Hissued : issued (updatePersona r) net log = [q1] \/
                    issued (updatePersona r) net log = [q1; q2]).
  { unfold issued. run_update. rewrite Hex. cbv zeta. fold q1.
    destruct (net log q1) as [r1|e]; cbn [snd].
    - destruct (ok r1 && truthy (JNum existing)); cbn [snd].
      + right. rewrite <- app_assoc. apply skipn_app_exact.
      + left. apply skipn_app_exact.
    - left. apply skipn_app_exact. }
  split; [reflexivity|]. split; [reflexivity|].
  split; [destruct Hissued as [-> | ->]; eauto|].
  split; [destruct Hissued as [-> | ->]; reflexivity|].
  split; [|split].
  - intros r1 Hnet. rewrite updatePersona_prompt_run, Hex. cbv zeta. fold q1.
    rewrite Hnet. reflexivity.
  - intros r1 Hnet Hok Hnz. split; [|reflexivity].
    run_update. rewrite Hex. cbv zeta. fold q1. rewrite Hnet, Hok.
    cbn [truthy andb]. apply Z.eqb_neq in Hnz. rewrite Hnz. cbn [negb].
    rewrite <- app_assoc. reflexivity.
  - intros r1 Hnet Hok ->. run_update. rewrite Hex. cbv zeta. fold q1.
    rewrite Hnet, Hok. reflexivity.
Qed.

Lemma updatePersona_existing_prompt_witness :
  url (updatePrompt_request 42 (lit "Bot") (lit "You are a bot.") (lit "Answer."))
    = lit "/api/prompt/42" /\
  updatePersona (Samples.update (Some 42)) (Samples.always Samples.no_id) [] =
  (Fulfilled (Samples.no_id, Some Samples.no_id),
   [updatePrompt_request 42 (lit "Bot") (lit "You are a bot.") (lit "Answer.");
    updatePersona_request (Samples.update (Some 42)) (JNum 42)]).
Proof.
  destruct (updatePersona_existing_prompt (Samples.always Samples.no_id) []
              (Samples.update (Some 42)) 42 eq_refl)
    as (_ & Hurl & _ & _ & _ & H & _).
  split; [exact Hurl|].
  refine (proj1 (H Samples.no_id eq_refl eq_refl _)). discriminate.
Defined.

(** C3, as stated, fails at [existingPromptId = 0]: the prompt-update
    succeeds, and no persona-update follows. *)
Lemma updatePersona_existing_prompt_0_skips :
  ok (Samples.with_id 0) = true /\
  updatePersona (Samples.update (Some 0)) (Samples.always (Samples.with_id 0)) [] =
  (Fulfilled (Samples.with_id 0, None),
   [updatePrompt_request 0 (lit "Bot") (lit "You are a bot.") (lit "Answer.")]).
Proof. split; reflexivity. Qed.

(** C4. With [existingPromptId] absent, [updatePersona] first issues the
    prompt-create call; [promptId] is the [id] read from the parsed body when
    the answer is ok, and [null] when it is not. When the answer is ok with
    body [{id: 5}], the persona-update is issued with [prompt_ids = [5]]. *)
Theorem updatePersona_new_prompt (net : Network) (log : list Request)
    (r : U.t) (r1 : Response) :
  let q1 := createPrompt_request (U.name r) (U.system_prompt r) (U.task_prompt r) in
  let q2 := updatePersona_request r (JNum 5) in
  U.existingPromptId r = None ->
  net log q1 = Fulfilled r1 ->
  is_prompt_create q1 = true /\
  (exists rest, issued (updatePersona r) net log = q1 :: rest) /\
  (forall v p, ok r1 = true -> body_json r1 = Some v -> get_id v = inr p ->
     updatePersona_prompt r net log = (Fulfilled (r1, p), log ++ [q1])) /\
  (ok r1 = false ->
     updatePersona_prompt r net log = (Fulfilled (r1, JNull), log ++ [q1])) /\
  (ok r1 = true -> body_json r1 = Some (JObj [(lit "id", JNum 5)]) ->
     updatePersona r net log = (paired r1 (net (log ++ [q1]) q2), log ++ [q1; q2]) /\
     method q2 = PATCH /\
     url q2 = lit "/api/admin/persona/" ++ Number_toString (U.id r) /\
     body q2 = JSON_stringify (buildPersonaAPIBody (inr r) (JNum 5)) /\
     field "prompt_ids" (buildPersonaAPIBody (inr r) (JNum 5)) = JArr [JNum 5]).
Proof.
  intros q1 q2 Hex Hnet.
  split; [reflexivity|]. split; [|split; [|split]].
  - unfold issued. run_update. rewrite Hex. cbv zeta. fold q1. rewrite Hnet.
    destruct (ok r1).
    + destruct (body_json r1) as [v|]; cbn [snd].
      * destruct (get_id v) as [e|p]; cbn [snd].
        -- rewrite skipn_app_exact. eauto.
        -- destruct (_ && truthy p); cbn [snd].
           ++ rewrite <- app_assoc, skipn_app_exact. cbn [app]. eauto.
           ++ rewrite skipn_app_exact. eauto.
      * rewrite skipn_app_exact. eauto.
    + cbn [truthy]. rewrite andb_false_r. cbn [snd].
      rewrite skipn_app_exact. eauto.
  - intros v p Hok Hbody Hid. rewrite updatePersona_prompt_run, Hex. cbv zeta.
    fold q1. known. reflexivity.
  - intros Hok. rewrite updatePersona_prompt_run, Hex. cbv zeta.
    fold q1. known. reflexivity.
  - intros Hok Hbody. repeat split.
    run_update. rewrite Hex. cbv zeta. fold q1. rewrite Hnet, Hok, Hbody.
    cbn. rewrite ?Hok. cbn [andb]. rewrite <- ?app_assoc. reflexivity.
Qed.

Lemma updatePersona_new_prompt_witness :
  updatePersona (Samples.update None) (Samples.always (Samples.with_id 5)) [] =
  (Fulfilled (Samples.with_id 5, Some (Samples.with_id 5)),
   [createPrompt_request (lit "Bot") (lit "You are a bot.") (lit "Answer.");
    updatePersona_request (Samples.update None) (JNum 5)]).
Proof.
  destruct (updatePersona_new_prompt (Samples.always (Samples.with_id 5)) []
              (Samples.update None) (Samples.with_id 5) eq_refl eq_refl)
    as (_ & _ & _ & _ & H).
  exact (proj1 (H eq_refl eq_refl)).
Defined.

(** C5. After the prompt step has left [promptResponse] and [promptId],
    [updatePersona] issues the persona-update call, a PATCH to
    [/api/admin/persona/{id}], exactly when [promptResponse] is ok and
    [promptId] is truthy, and returns the prompt response paired with the
    answer; otherwise it issues nothing more and returns
    [[promptResponse, null]]. A [promptId] of 0 is not truthy, so the
    persona-update is then skipped. *)
Theorem updatePersona_persona_call_iff (net : Network) (log log1 : list Request)
    (r : U.t) (r1 : Response) (promptId : jsval) :
  updatePersona_prompt r net log = (Fulfilled (r1, promptId), log1) ->
  let q2 := updatePersona_request r promptId in
  method q2 = PATCH /\
  url q2 = lit "/api/admin/persona/" ++ Number_toString (U.id r) /\
  updatePersona r net log =
    (if ok r1 && truthy promptId
     then (paired r1 (net log1 q2), log1 ++ [q2])
     else (Fulfilled (r1, None), log1)) /\
  (In q2 (skipn (List.length log1) (snd (updatePersona r net log))) <->
     ok r1 = true /\ truthy promptId = true) /\
  (promptId = JNum 0 -> updatePersona r net log = (Fulfilled (r1, None), log1)).
Proof.
  intros Hprompt q2.
  assert (Hrun : updatePersona r net log =
                 (if ok r1 && truthy promptId
                  then (paired r1 (net log1 q2), log1 ++ [q2])
                  else (Fulfilled (r1, None), log1))).
  { rewrite updatePersona_run, Hprompt. reflexivity. }
  split; [reflexivity|]. split; [reflexivity|]. split; [exact Hrun|]. split.
  - rewrite Hrun. destruct (ok r1), (truthy promptId); cbn [andb snd].
    + rewrite skipn_app_exact. split; [auto | intros _; left; reflexivity].
    + rewrite <- (app_nil_r log1) at 2. rewrite skipn_app_exact.
      split; [intros [] | intros [_ H]; discriminate].
    + rewrite <- (app_nil_r log1) at 2. rewrite skipn_app_exact.
      split; [intros [] | intros [H _]; discriminate].
    + rewrite <- (app_nil_r log1) at 2. rewrite skipn_app_exact.
      split; [intros [] | intros [H _]; discriminate].
  - intros ->. rewrite Hrun. cbn [truthy]. cbn. rewrite andb_false_r. reflexivity.
Qed.

Lemma updatePersona_persona_call_iff_witness :
  updatePersona (Samples.update (Some 0)) (Samples.always (Samples.with_id 9)) [] =
  (Fulfilled (Samples.with_id 9, None),
   [updatePrompt_request 0 (lit "Bot") (lit "You are a bot.") (lit "Answer.")]).
Proof.
  destruct (updatePersona_persona_call_iff (Samples.always (Samples.with_id 9)) []
              [updatePrompt_request 0 (lit "Bot") (lit "You are a bot.") (lit "Answer.")]
              (Samples.update (Some 0)) (Samples.with_id 9) (JNum 0) eq_refl)
    as (_ & _ & _ & _ & H).
  exact (H eq_refl).
Defined.

(* ===================================================================== *)
(** ** A prompt response without an id *)
(* ===================================================================== *)

Lemma get_id_without_field v :
  has_id_field v = false ->
  get_id v = if is_nullish v then inl TypeError else inr JUndefined.
Proof.
  destruct v as [| | | | | |fields]; cbn [has_id_field get_id is_nullish];
    try reflexivity.
  destruct (assoc (lit "id") fields); [discriminate | reflexivity].
Qed.

(** C6, as the code has it. When the prompt-create answer is ok and its
    parsed body is not [null] and has no [id] field, [createPersona] reads
    [undefined], which is not [null], and still issues the persona-create
    call, built with [prompt_ids = [undefined]]; [updatePersona] without an
    existing prompt tests truthiness, issues no persona-update and returns
    [[promptResponse, null]]. When the parsed body is [null], which has no
    [id] field either, reading [.id] throws: both operations reject with a
    TypeError and issue no persona call. *)
Theorem missing_id_create_calls_update_skips (net : Network) (log : list Request)
    (rc : C.t) (ru : U.t) (r1 : Response) (v : jsval) :
  ok r1 = true ->
  body_json r1 = Some v ->
  has_id_field v = false ->
  let qc := createPrompt_request (C.name rc) (C.system_prompt rc) (C.task_prompt rc) in
  let qu := createPrompt_request (U.name ru) (U.system_prompt ru) (U.task_prompt ru) in
  let q2 := createPersona_request rc JUndefined in
  (is_nullish v = false ->
     (net log qc = Fulfilled r1 ->
        createPersona rc net log =
          (paired r1 (net (log ++ [qc]) q2), log ++ [qc; q2]) /\
        is_persona_create q2 = true /\
        body q2 = JSON_stringify (buildPersonaAPIBody (inl rc) JUndefined) /\
        field "prompt_ids" (buildPersonaAPIBody (inl rc) JUndefined)
          = JArr [JUndefined]) /\
     (U.existingPromptId ru = None -> net log qu = Fulfilled r1 ->
        updatePersona ru net log = (Fulfilled (r1, None), log ++ [qu]))) /\
  (is_nullish v = true ->
     (net log qc = Fulfilled r1 ->
        createPersona rc net log = (Rejected TypeError, log ++ [qc])) /\
     (U.existingPromptId ru = None -> net log qu = Fulfilled r1 ->
        updatePersona ru net log = (Rejected TypeError, log ++ [qu]))).
Proof.
  intros Hok Hbody Hfield qc qu q2. apply get_id_without_field in Hfield.
  split; intros Hn; rewrite Hn in Hfield; split.
  - intros Hnet. repeat split.
    run_create. fold qc. rewrite Hnet, Hok, Hbody, Hfield. reflexivity.
  - intros Hex Hnet. run_update. rewrite Hex. cbv zeta. fold qu.
    rewrite Hnet, Hok, Hbody, Hfield.
    cbn [truthy]. rewrite andb_false_r. reflexivity.
  - intros Hnet. run_create. fold qc. rewrite Hnet, Hok, Hbody, Hfield.
    reflexivity.
  - intros Hex Hnet. run_update. rewrite Hex. cbv zeta. fold qu.
    rewrite Hnet, Hok, Hbody, Hfield. reflexivity.
Qed.

Lemma missing_id_create_calls_update_skips_witness :
  (createPersona Samples.creation (Samples.always Samples.no_id) [] =
     (Fulfilled (Samples.no_id, Some Samples.no_id),
      [createPrompt_request (lit "Bot") (lit "You are a bot.") (lit "Answer.");
       createPersona_request Samples.creation JUndefined]) /\
   updatePersona (Samples.update None) (Samples.always Samples.no_id) [] =
     (Fulfilled (Samples.no_id, None),
      [createPrompt_request (lit "Bot") (lit "You are a bot.") (lit "Answer.")])) /\
  (createPersona Samples.creation (Samples.always MoreSamples.null_body) [] =
     (Rejected TypeError,
      [createPrompt_request (lit "Bot") (lit "You are a bot.") (lit "Answer.")]) /\
   updatePersona (Samples.update None) (Samples.always MoreSamples.null_body) [] =
     (Rejected TypeError,
      [createPrompt_request (lit "Bot") (lit "You are a bot.") (lit "Answer.")])).
Proof.
  split.
  - destruct (missing_id_create_calls_update_skips (Samples.always Samples.no_id) []
                Samples.creation (Samples.update None) Samples.no_id (JObj [])
                eq_refl eq_refl eq_refl) as [H _].
    destruct (H eq_refl) as [Hc Hu].
    split; [exact (proj1 (Hc eq_refl)) | exact (Hu eq_refl eq_refl)].
  - destruct (missing_id_create_calls_update_skips
                (Samples.always MoreSamples.null_body) []
                Samples.creation (Samples.update None) MoreSamples.null_body JNull
                eq_refl eq_refl eq_refl) as [_ H].
    destruct (H eq_refl) as [Hc Hu].
    split; [exact (Hc eq_refl) | exact (Hu eq_refl eq_refl)].
Defined.

(** C6, as stated, fails for the parsed body [null]: it has no [id] field,
    the answer is ok, and yet [createPersona] issues no persona-create call;
    reading [.id] throws and the promise rejects. *)
Lemma createPersona_null_body_no_persona_call :
  ok MoreSamples.null_body = true /\
  body_json MoreSamples.null_body = Some JNull /\
  has_id_field JNull = false /\
  createPersona Samples.creation (Samples.always MoreSamples.null_body) [] =
  (Rejected TypeError,
   [createPrompt_request (lit "Bot") (lit "You are a bot.") (lit "Answer.")]).
Proof. repeat split. Qed.

(** On the wire the [undefined] element is written [null], and a number
    in decimal. *)
Lemma prompt_ids_on_the_wire :
  JSON_stringify (JArr [JUndefined]) = Some (lit "[null]") /\
  JSON_stringify (JArr [JNum 7]) = Some (lit "[7]") /\
  JSON_stringify (JObj [(lit "prompt_ids", JArr [JNum 42]); (lit "x", JUndefined)])
    = Some (lit "{" ++ [34] ++ lit "prompt_ids" ++ [34] ++ lit ":[42]}").
Proof. repeat split. Qed.

(* ===================================================================== *)
(** ** One prompt per persona, derived from its name *)
(* ===================================================================== *)

Lemma createPrompt_request_step personaName systemPrompt taskPrompt :
  persona_step personaName (createPrompt_request personaName systemPrompt taskPrompt).
Proof.
  left. split; [reflexivity|].
  exists (prompt_body personaName systemPrompt taskPrompt). repeat split.
Qed.

Lemma updatePrompt_request_step promptId personaName systemPrompt taskPrompt :
  persona_step personaName
    (updatePrompt_request promptId personaName systemPrompt taskPrompt).
Proof.
  left. split; [reflexivity|].
  exists (prompt_body personaName systemPrompt taskPrompt). repeat split.
Qed.

Lemma createPersona_request_step personaName r promptId :
  persona_step personaName (createPersona_request r promptId).
Proof.
  right. split; [reflexivity|].
  exists (buildPersonaAPIBody (inl r) promptId), promptId. split; reflexivity.
Qed.

Lemma updatePersona_request_step personaName r promptId :
  persona_step personaName (updatePersona_request r promptId).
Proof.
  right. split; [reflexivity|].
  exists (buildPersonaAPIBody (inr r) promptId), promptId. split; reflexivity.
Qed.

Create HintDb steps.

#[local] Hint Resolve createPrompt_request_step updatePrompt_request_step
  createPersona_request_step updatePersona_request_step : steps.

(** C7. Every persona body built by [buildPersonaAPIBody] has a one-element
    [prompt_ids]; every request that [createPersona] or [updatePersona]
    issues is either a prompt request whose body has the name
    [default-prompt__<personaName>], the description
    [Default prompt for persona <personaName>] and [shared = true], all three
    a function of the persona name alone, or a persona request whose body
    has a one-element [prompt_ids]. *)
Theorem one_derived_prompt_per_persona :
  (forall r promptId,
     field "prompt_ids" (buildPersonaAPIBody r promptId) = JArr [promptId]) /\
  (forall personaName systemPrompt taskPrompt,
     field "name" (prompt_body personaName systemPrompt taskPrompt)
       = JStr (lit "default-prompt__" ++ personaName) /\
     field "description" (prompt_body personaName systemPrompt taskPrompt)
       = JStr (lit "Default prompt for persona " ++ personaName) /\
     field "shared" (prompt_body personaName systemPrompt taskPrompt) = JBool true) /\
  (forall net log r,
     Forall (persona_step (C.name r)) (issued (createPersona r) net log)) /\
  (forall net log r,
     Forall (persona_step (U.name r)) (issued (updatePersona r) net log)).
Proof.
  split; [reflexivity|]. split; [repeat split|]. split.
  - intros net log r. unfold issued. run_create.
    destruct (net log _) as [r1|e]; cbn [snd].
    + destruct (ok r1); cbn [snd].
      * destruct (body_json r1) as [v|]; cbn [snd].
        -- destruct (get_id v) as [e|p]; cbn [snd].
           ++ rewrite skipn_app_exact. auto with steps.
           ++ destruct (strict_neq_null p); cbn [snd];
                rewrite skipn_app_exact; auto with steps.
        -- rewrite skipn_app_exact. auto with steps.
      * rewrite skipn_app_exact. auto with steps.
    + rewrite skipn_app_exact. auto with steps.
  - intros net log r. unfold issued. rewrite updatePersona_run.
    assert (Hprompt : exists q1, persona_step (U.name r) q1 /\
                        snd (updatePersona_prompt r net log) = log ++ [q1]).
    { rewrite updatePersona_prompt_run.
      destruct (U.existingPromptId r) as [existing|]; cbv zeta.
      - eexists. split; [apply updatePrompt_request_step|].
        destruct (net log _); reflexivity.
      - eexists. split; [apply createPrompt_request_step|].
        destruct (net log _) as [r1|e]; [|reflexivity].
        destruct (ok r1); [|reflexivity].
        destruct (body_json r1) as [v|]; [|reflexivity].
        destruct (get_id v); reflexivity. }
    destruct Hprompt as (q1 & Hq1 & Hlog).
    destruct (updatePersona_prompt r net log) as [[[r1 p]|e] log1];
      cbn [snd] in Hlog; subst log1.
    + destruct (ok r1 && truthy p); cbn [snd].
      * rewrite <- app_assoc, skipn_app_exact. cbn [app]. auto with steps.
      * rewrite skipn_app_exact. auto.
    + cbn [snd]. rewrite skipn_app_exact. auto.
Qed.

(* ===================================================================== *)
(** ** deletePersona *)
(* ===================================================================== *)

(** C9. [deletePersona] issues one request and no other, a DELETE to
    [/api/admin/persona/{personaId}] without headers or body, and completes
    as that request does: the response, or the rejection, unchanged. *)
Theorem deletePersona_single_delete (net : Network) (log : list Request)
    (personaId : Z) :
  let q := {| method := DELETE;
              url := lit "/api/admin/persona/" ++ Number_toString personaId;
              headers := [];
              body := None |} in
  deletePersona personaId net log = (net log q, log ++ [q]) /\
  issued (deletePersona personaId) net log = [q] /\
  url (deletePersona_request 99) = lit "/api/admin/persona/99".
Proof.
  intros q. split; [reflexivity|]. split; [|reflexivity].
  apply issued_eq. reflexivity.
Qed.

(* ===================================================================== *)
(** ** A prompt body that is not JSON *)
(* ===================================================================== *)

(** C10. When the prompt-create answer is ok but its body is not JSON,
    [createPersona], and [updatePersona] without an existing prompt, return
    no pair: the promise rejects with the parse error, and the only request
    issued is the prompt-create, so the persona call is never reached. *)
Theorem unparsed_prompt_body_rejects (net : Network) (log : list Request)
    (r1 : Response) :
  ok r1 = true ->
  body_json r1 = None ->
  (forall r : C.t,
     let q1 := createPrompt_request (C.name r) (C.system_prompt r) (C.task_prompt r) in
     net log q1 = Fulfilled r1 ->
     createPersona r net log = (Rejected SyntaxError, log ++ [q1])) /\
  (forall r : U.t,
     let q1 := createPrompt_request (U.name r) (U.system_prompt r) (U.task_prompt r) in
     U.existingPromptId r = None ->
     net log q1 = Fulfilled r1 ->
     updatePersona r net log = (Rejected SyntaxError, log ++ [q1])).
Proof.
  intros Hok Hbody. split.
  - intros r q1 Hnet. run_create. fold q1. known. reflexivity.
  - intros r q1 Hex Hnet. run_update. rewrite Hex. cbv zeta. fold q1.
    known. reflexivity.
Qed.

Lemma unparsed_prompt_body_rejects_witness :
  createPersona Samples.creation (Samples.always Samples.not_json) [] =
    (Rejected SyntaxError,
     [createPrompt_request (lit "Bot") (lit "You are a bot.") (lit "Answer.")]) /\
  updatePersona (Samples.update None) (Samples.always Samples.not_json) [] =
    (Rejected SyntaxError,
     [createPrompt_request (lit "Bot") (lit "You are a bot.") (lit "Answer.")]).
Proof.
  destruct (unparsed_prompt_body_rejects (Samples.always Samples.not_json) []
              Samples.not_json eq_refl eq_refl) as [Hc Hu].
  split; [exact (Hc Samples.creation eq_refl)
         | exact (Hu (Samples.update None) eq_refl eq_refl)].
Defined.

(* ===================================================================== *)
(** ** buildFinalPrompt *)
(* ===================================================================== *)

Lemma uri_unreserved_ascii c : uri_unreserved c = true -> 0 <= c < 128.
Proof.
  unfold uri_unreserved. cbn [lit list_ascii_of_string map existsb].
  rewrite !orb_true_iff, !andb_true_iff, !Z.leb_le, !Z.eqb_eq.
  cbn. lia.
Qed.

Lemma unreserved_not_surrogate c :
  uri_unreserved c = true ->
  is_leading_surrogate c = false /\ is_trailing_surrogate c = false.
Proof.
  intros H. apply uri_unreserved_ascii in H.
  unfold is_leading_surrogate, is_trailing_surrogate.
  split; apply andb_false_iff; left; apply Z.leb_gt; lia.
Qed.

Lemma surrogate_pair_reserved c d :
  is_leading_surrogate c = true -> is_trailing_surrogate d = true ->
  uri_unreserved (surrogate_pair_to_code_point c d) = false.
Proof.
  unfold is_leading_surrogate, is_trailing_surrogate, surrogate_pair_to_code_point.
  rewrite !andb_true_iff, !Z.leb_le. intros [? ?] [? ?].
  destruct (uri_unreserved _) eqn:E; [|reflexivity].
  apply uri_unreserved_ascii in E. lia.
Qed.

(** [Encode] decodes the UTF-16 text and percent-encodes its code points;
    it throws exactly when a surrogate is unpaired. *)
Lemma Encode_code_points s :
  Encode s = match code_points s with
             | Some cps => inr (percent_encode cps)
             | None => inl URIError
             end.
Proof.
  enough (H : Encode s = match code_points s with
                         | Some cps => inr (percent_encode cps)
                         | None => inl URIError
                         end /\
              forall c, Encode (c :: s) = match code_points (c :: s) with
                                          | Some cps => inr (percent_encode cps)
                                          | None => inl URIError
                                          end) by apply H.
  induction s as [|d rest [IHrest IHcons]].
  - split; [reflexivity|]. intros c. cbn [Encode code_points].
    destruct (uri_unreserved c) eqn:Hu.
    + destruct (unreserved_not_surrogate c Hu) as [-> ->].
      cbn. rewrite Hu. reflexivity.
    + destruct (is_leading_surrogate c); [reflexivity|].
      destruct (is_trailing_surrogate c); [reflexivity|].
      cbn. rewrite Hu, app_nil_r. reflexivity.
  - split; [apply IHcons|]. intros c.
    specialize (IHcons d).
    change (Encode (c :: d :: rest)) with
      (if uri_unreserved c then
         match Encode (d :: rest) with inr r => inr (c :: r) | inl e => inl e end
       else if is_leading_surrogate c then
         if is_trailing_surrogate d then
           match Encode rest with
           | inr r => inr (percent_code_point (surrogate_pair_to_code_point c d) ++ r)
           | inl e => inl e
           end
         else inl URIError
       else if is_trailing_surrogate c then inl URIError
       else match Encode (d :: rest) with
            | inr r => inr (percent_code_point c ++ r)
            | inl e => inl e
            end).
    change (code_points (c :: d :: rest)) with
      (if is_leading_surrogate c then
         if is_trailing_surrogate d
         then option_map (cons (surrogate_pair_to_code_point c d)) (code_points rest)
         else None
       else if is_trailing_surrogate c then None
       else option_map (cons c) (code_points (d :: rest))).
    destruct (uri_unreserved c) eqn:Hu.
    + destruct (unreserved_not_surrogate c Hu) as [-> ->].
      rewrite IHcons. destruct (code_points (d :: rest)) as [cps|]; [|reflexivity].
      cbn [option_map percent_encode flat_map]. rewrite Hu. reflexivity.
    + destruct (is_leading_surrogate c) eqn:Hl.
      * destruct (is_trailing_surrogate d) eqn:Ht; [|reflexivity].
        rewrite IHrest. destruct (code_points rest) as [cps|]; [|reflexivity].
        cbn [option_map percent_encode flat_map].
        rewrite (surrogate_pair_reserved c d Hl Ht). reflexivity.
      * destruct (is_trailing_surrogate c); [reflexivity|].
        rewrite IHcons. destruct (code_points (d :: rest)) as [cps|]; [|reflexivity].
        cbn [option_map percent_encode flat_map]. rewrite Hu. reflexivity.
Qed.

(** Two octets for U+00E9, four for the pair that encodes U+1F600. *)
Lemma Encode_beyond_ascii :
  Encode [0xE9] = inr (lit "%C3%A9") /\
  Encode [0xD83D; 0xDE00] = inr (lit "%F0%9F%98%80") /\
  Encode (lit "a b/c_d~e") = inr (lit "a%20b%2Fc_d~e").
Proof. repeat split. Qed.

Lemma Encode_literal_keys :
  Encode (lit "system_prompt") = inr (lit "system_prompt") /\
  Encode (lit "task_prompt") = inr (lit "task_prompt") /\
  Encode (lit "retrieval_disabled") = inr (lit "retrieval_disabled").
Proof. repeat split. Qed.

Lemma Encode_boolean b : Encode (Boolean_toString b) = inr (Boolean_toString b).
Proof. destruct b; reflexivity. Qed.

Lemma queryString_well_formed systemPrompt taskPrompt retrievalDisabled cs ct :
  code_points systemPrompt = Some cs ->
  code_points taskPrompt = Some ct ->
  queryString systemPrompt taskPrompt retrievalDisabled =
  inr (lit "system_prompt=" ++ percent_encode cs ++
       lit "&task_prompt=" ++ percent_encode ct ++
       lit "&retrieval_disabled=" ++ Boolean_toString retrievalDisabled).
Proof.
  intros Hs Ht. destruct Encode_literal_keys as (K1 & K2 & K3).
  unfold queryString, Array_map, encode_entry, encodeURIComponent.
  cbn [fst snd ToString].
  rewrite K1, K2, K3, Encode_boolean, !Encode_code_points, Hs, Ht.
  cbn [join]. rewrite <- !app_assoc. reflexivity.
Qed.

Lemma queryString_unpaired systemPrompt taskPrompt retrievalDisabled :
  code_points systemPrompt = None \/ code_points taskPrompt = None ->
  queryString systemPrompt taskPrompt retrievalDisabled = inl URIError.
Proof.
  intros H. destruct Encode_literal_keys as (K1 & K2 & _).
  unfold queryString, Array_map, encode_entry, encodeURIComponent.
  cbn [fst snd ToString].
  rewrite K1, K2, !Encode_code_points.
  destruct H as [-> | ->]; [reflexivity|].
  destruct (code_points systemPrompt); reflexivity.
Qed.

(** C8, as the code has it. For prompts in which every surrogate is paired,
    [buildFinalPrompt] builds the query string from the three keys
    [system_prompt], [task_prompt], [retrieval_disabled] in that order, each
    key and value percent-encoded on its own (a space is [%20], a slash is
    [%2F]) and the pairs joined with [&], and issues one GET to
    [/api/persona/utils/prompt-explorer] with it, completing as that request
    does. For a prompt with an unpaired surrogate it throws a URIError and
    issues nothing. *)
Theorem buildFinalPrompt_query (systemPrompt taskPrompt : jsstring)
    (retrievalDisabled : bool) :
  (forall cs ct,
     code_points systemPrompt = Some cs ->
     code_points taskPrompt = Some ct ->
     let qs := lit "system_prompt=" ++ percent_encode cs ++
               lit "&task_prompt=" ++ percent_encode ct ++
               lit "&retrieval_disabled=" ++ Boolean_toString retrievalDisabled in
     let q := {| method := GET;
                 url := lit "/api/persona/utils/prompt-explorer?" ++ qs;
                 headers := [];
                 body := None |} in
     queryString systemPrompt taskPrompt retrievalDisabled = inr qs /\
     exists p,
       buildFinalPrompt systemPrompt taskPrompt retrievalDisabled = inr p /\
       forall net log, p net log = (net log q, log ++ [q])) /\
  (code_points systemPrompt = None \/ code_points taskPrompt = None ->
     buildFinalPrompt systemPrompt taskPrompt retrievalDisabled = inl URIError) /\
  percent_encode (lit " ") = lit "%20" /\
  percent_encode (lit "/") = lit "%2F".
Proof.
  split; [|split; [|split; reflexivity]].
  - intros cs ct Hs Ht qs q.
    pose proof (queryString_well_formed systemPrompt taskPrompt retrievalDisabled
                  cs ct Hs Ht) as Hq.
    split; [exact Hq|].
    unfold buildFinalPrompt. rewrite Hq.
    eexists. split; [reflexivity|]. reflexivity.
  - intros H. unfold buildFinalPrompt.
    rewrite (queryString_unpaired _ _ _ H). reflexivity.
Qed.

Lemma buildFinalPrompt_query_witness :
  exists p,
    buildFinalPrompt (lit "sys a") (lit "task/b") true = inr p /\
    forall net log,
      p net log =
      (net log
         {| method := GET;
            url := lit "/api/persona/utils/prompt-explorer?system_prompt=sys%20a&task_prompt=task%2Fb&retrieval_disabled=true";
            headers := [];
            body := None |},
       log ++
       [{| method := GET;
           url := lit "/api/persona/utils/prompt-explorer?system_prompt=sys%20a&task_prompt=task%2Fb&retrieval_disabled=true";
           headers := [];
           body := None |}]).
Proof.
  exact (proj2 (proj1 (buildFinalPrompt_query (lit "sys a") (lit "task/b") true)
                  (lit "sys a") (lit "task/b") eq_refl eq_refl)).
Defined.

(** C8, as stated, fails for a prompt that holds an unpaired surrogate:
    nothing is encoded and no GET is issued. *)
Lemma buildFinalPrompt_unpaired_surrogate_throws :
  buildFinalPrompt [0xD83D] (lit "task") true = inl URIError.
Proof. reflexivity. Qed.

(* ===================================================================== *)
(** ** When a call fails *)
(* ===================================================================== *)

(** [createPersona] has no handler around its awaits. If the prompt call
    fails at the network, the promise rejects with that error after the one
    request. If the persona call fails at the network, the promise rejects
    with that error too: the prompt has been created, and its response does
    not reach the caller. *)
Theorem createPersona_network_failure (net : Network) (log : list Request)
    (r : C.t) :
  let q1 := createPrompt_request (C.name r) (C.system_prompt r) (C.task_prompt r) in
  (forall e, net log q1 = Rejected e ->
     createPersona r net log = (Rejected e, log ++ [q1])) /\
  (forall r1 v p e,
     net log q1 = Fulfilled r1 -> ok r1 = true ->
     body_json r1 = Some v -> get_id v = inr p -> strict_neq_null p = true ->
     net (log ++ [q1]) (createPersona_request r p) = Rejected e ->
     createPersona r net log =
       (Rejected e, log ++ [q1; createPersona_request r p])).
Proof.
  intros q1. split.
  - intros e Hnet. run_create. fold q1. known. reflexivity.
  - intros r1 v p e Hnet Hok Hbody Hid Hp Hnet2.
    run_create. fold q1. known. rewrite Hnet2. reflexivity.
Qed.

Lemma createPersona_network_failure_witness :
  createPersona Samples.creation MoreSamples.offline [] =
    (Rejected TypeError,
     [createPrompt_request (lit "Bot") (lit "You are a bot.") (lit "Answer.")]) /\
  createPersona Samples.creation (MoreSamples.persona_down (Samples.with_id 7)) [] =
    (Rejected TypeError,
     [createPrompt_request (lit "Bot") (lit "You are a bot.") (lit "Answer.");
      createPersona_request Samples.creation (JNum 7)]).
Proof.
  split.
  - exact (proj1 (createPersona_network_failure MoreSamples.offline []
                    Samples.creation) TypeError eq_refl).
  - exact (proj2 (createPersona_network_failure
                    (MoreSamples.persona_down (Samples.with_id 7)) []
                    Samples.creation)
             (Samples.with_id 7) _ (JNum 7) TypeError
             eq_refl eq_refl eq_refl eq_refl eq_refl eq_refl).
Defined.

(** The same holds of [updatePersona], in both branches of its prompt step:
    a failed prompt call rejects after one request, and a failed persona
    call rejects after two, the prompt having been written. *)
Theorem updatePersona_network_failure (net : Network) (log log1 : list Request)
    (r : U.t) :
  let q1 := match U.existingPromptId r with
            | Some existing =>
                updatePrompt_request existing (U.name r) (U.system_prompt r)
                  (U.task_prompt r)
            | None =>
                createPrompt_request (U.name r) (U.system_prompt r) (U.task_prompt r)
            end in
  (forall e, net log q1 = Rejected e ->
     updatePersona r net log = (Rejected e, log ++ [q1])) /\
  (forall r1 p e,
     updatePersona_prompt r net log = (Fulfilled (r1, p), log1) ->
     ok r1 = true -> truthy p = true ->
     net log1 (updatePersona_request r p) = Rejected e ->
     log1 = log ++ [q1] /\
     updatePersona r net log =
       (Rejected e, log ++ [q1; updatePersona_request r p])).
Proof.
  intros q1. split.
  - intros e Hnet. run_update. subst q1.
    destruct (U.existingPromptId r); cbv zeta; rewrite Hnet; reflexivity.
  - intros r1 p e Hprompt Hok Hp Hnet2.
    assert (Hlog : log1 = log ++ [q1]).
    { rewrite updatePersona_prompt_run in Hprompt. subst q1.
      destruct (U.existingPromptId r); cbv zeta in Hprompt.
      - destruct (net log _); inversion Hprompt; reflexivity.
      - destruct (net log _) as [r0|]; [|inversion Hprompt; reflexivity].
        destruct (ok r0); [|inversion Hprompt; reflexivity].
        destruct (body_json r0) as [v|]; [|inversion Hprompt; reflexivity].
        destruct (get_id v); inversion Hprompt; reflexivity. }
    split; [exact Hlog|].
    rewrite updatePersona_run, Hprompt, Hok, Hp. cbn [andb]. cbv zeta.
    rewrite Hnet2, Hlog, <- app_assoc. reflexivity.
Qed.

Lemma updatePersona_network_failure_witness :
  updatePersona (Samples.update (Some 42)) MoreSamples.offline [] =
    (Rejected TypeError,
     [updatePrompt_request 42 (lit "Bot") (lit "You are a bot.") (lit "Answer.")]) /\
  updatePersona (Samples.update None)
      (MoreSamples.persona_down (Samples.with_id 5)) [] =
    (Rejected TypeError,
     [createPrompt_request (lit "Bot") (lit "You are a bot.") (lit "Answer.");
      updatePersona_request (Samples.update None) (JNum 5)]).
Proof.
  split.
  - exact (proj1 (updatePersona_network_failure MoreSamples.offline [] []
                    (Samples.update (Some 42))) TypeError eq_refl).
  - exact (proj2 (proj2 (updatePersona_network_failure
                           (MoreSamples.persona_down (Samples.with_id 5)) []
                           [createPrompt_request (lit "Bot") (lit "You are a bot.")
                              (lit "Answer.")]
                           (Samples.update None))
                    (Samples.with_id 5) (JNum 5) TypeError
                    eq_refl eq_refl eq_refl eq_refl)).
Defined.

(** An ok prompt-create answer whose body is the JSON text [null] parses,
    but reading [.id] from it throws: [createPersona], and [updatePersona]
    without an existing prompt, reject with a TypeError after the prompt
    request alone. *)
Theorem null_prompt_body_rejects (net : Network) (log : list Request)
    (r1 : Response) :
  ok r1 = true ->
  body_json r1 = Some JNull ->
  (forall r : C.t,
     let q1 := createPrompt_request (C.name r) (C.system_prompt r) (C.task_prompt r) in
     net log q1 = Fulfilled r1 ->
     createPersona r net log = (Rejected TypeError, log ++ [q1])) /\
  (forall r : U.t,
     let q1 := createPrompt_request (U.name r) (U.system_prompt r) (U.task_prompt r) in
     U.existingPromptId r = None ->
     net log q1 = Fulfilled r1 ->
     updatePersona r net log = (Rejected TypeError, log ++ [q1])).
Proof.
  intros Hok Hbody. split.
  - intros r q1 Hnet. run_create. fold q1. known. reflexivity.
  - intros r q1 Hex Hnet. run_update. rewrite Hex. cbv zeta. fold q1.
    known. reflexivity.
Qed.

Lemma null_prompt_body_rejects_witness :
  createPersona Samples.creation (Samples.always MoreSamples.null_body) [] =
    (Rejected TypeError,
     [createPrompt_request (lit "Bot") (lit "You are a bot.") (lit "Answer.")]) /\
  updatePersona (Samples.update None) (Samples.always MoreSamples.null_body) [] =
    (Rejected TypeError,
     [createPrompt_request (lit "Bot") (lit "You are a bot.") (lit "Answer.")]).
Proof.
  destruct (null_prompt_body_rejects (Samples.always MoreSamples.null_body) []
              MoreSamples.null_body eq_refl eq_refl) as [Hc Hu].
  split; [exact (Hc Samples.creation eq_refl)
         | exact (Hu (Samples.update None) eq_refl eq_refl)].
Defined.

(* ===================================================================== *)
(** ** What a returned pair tells the caller *)
(* ===================================================================== *)

(** When [createPersona] returns a pair, its first element is the answer to
    the prompt request. A second element that is a response means that the
    prompt answer was ok and that it is the answer to a persona-create
    request, issued second; a [null] second element means that the prompt
    request was the only one issued. *)
Theorem createPersona_fulfilled_shape (net : Network) (log log' : list Request)
    (r : C.t) (r1 : Response) (second : option Response) :
  createPersona r net log = (Fulfilled (r1, second), log') ->
  let q1 := createPrompt_request (C.name r) (C.system_prompt r) (C.task_prompt r) in
  net log q1 = Fulfilled r1 /\
  match second with
  | Some r2 =>
      ok r1 = true /\
      exists p, strict_neq_null p = true /\
                log' = log ++ [q1; createPersona_request r p] /\
                net (log ++ [q1]) (createPersona_request r p) = Fulfilled r2
  | None => log' = log ++ [q1]
  end.
Proof.
  intros Hrun q1. rewrite createPersona_run in Hrun. cbv zeta in Hrun. fold q1 in Hrun.
  destruct (net log q1) as [r0|e]; [|discriminate].
  destruct (ok r0) eqn:Hok.
  - destruct (body_json r0) as [v|]; [|discriminate].
    destruct (get_id v) as [e|p]; [discriminate|].
    destruct (strict_neq_null p) eqn:Hp.
    + destruct (net (log ++ [q1]) (createPersona_request r p)) as [r2|e] eqn:Hnet2;
        cbn [paired] in Hrun; [|discriminate].
      inversion Hrun; subst. split; [reflexivity|]. split; [exact Hok|].
      exists p. auto.
    + inversion Hrun; subst. split; reflexivity.
  - inversion Hrun; subst. split; reflexivity.
Qed.

Lemma createPersona_fulfilled_shape_witness :
  ok (Samples.with_id 7) = true /\
  exists p, strict_neq_null p = true /\
    [createPrompt_request (lit "Bot") (lit "You are a bot.") (lit "Answer.");
     createPersona_request Samples.creation (JNum 7)] =
    [] ++ [createPrompt_request (lit "Bot") (lit "You are a bot.") (lit "Answer.");
           createPersona_request Samples.creation p] /\
    Samples.always (Samples.with_id 7)
      ([] ++ [createPrompt_request (lit "Bot") (lit "You are a bot.") (lit "Answer.")])
      (createPersona_request Samples.creation p) = Fulfilled (Samples.with_id 7).
Proof.
  exact (proj2 (createPersona_fulfilled_shape
                  (Samples.always (Samples.with_id 7)) [] _ Samples.creation
                  (Samples.with_id 7) (Some (Samples.with_id 7)) eq_refl)).
Defined.

(** When [updatePersona] returns a pair, the prompt step has left its first
    element and a [promptId]. A second element that is a response means
    that the prompt answer was ok, that [promptId] was truthy, and that it
    is the answer to the persona-update request; a [null] second element
    means that nothing followed the prompt step, because the prompt answer
    was not ok or [promptId] was not truthy. *)
Theorem updatePersona_fulfilled_shape (net : Network) (log log' : list Request)
    (r : U.t) (r1 : Response) (second : option Response) :
  updatePersona r net log = (Fulfilled (r1, second), log') ->
  exists p log1,
    updatePersona_prompt r net log = (Fulfilled (r1, p), log1) /\
    match second with
    | Some r2 =>
        ok r1 = true /\ truthy p = true /\
        log' = log1 ++ [updatePersona_request r p] /\
        net log1 (updatePersona_request r p) = Fulfilled r2
    | None => log' = log1 /\ (ok r1 = false \/ truthy p = false)
    end.
Proof.
  intros Hrun. rewrite updatePersona_run in Hrun.
  destruct (updatePersona_prompt r net log) as [[[r0 p]|e] log1]; [|discriminate].
  destruct (ok r0) eqn:Hok; cbn [andb] in Hrun.
  - destruct (truthy p) eqn:Hp.
    + cbv zeta in Hrun.
      destruct (net log1 (updatePersona_request r p)) as [r2|e] eqn:Hnet2;
        cbn [paired] in Hrun; [|discriminate].
      inversion Hrun; subst. exists p, log1. rewrite Hok. auto.
    + inversion Hrun; subst. exists p, log'. auto.
  - inversion Hrun; subst. exists p, log'. auto.
Qed.

Lemma updatePersona_fulfilled_shape_witness :
  exists p log1,
    updatePersona_prompt (Samples.update (Some 0))
      (Samples.always (Samples.with_id 9)) [] =
      (Fulfilled (Samples.with_id 9, p), log1) /\
    [updatePrompt_request 0 (lit "Bot") (lit "You are a bot.") (lit "Answer.")] = log1 /\
    (ok (Samples.with_id 9) = false \/ truthy p = false).
Proof.
  exact (updatePersona_fulfilled_shape (Samples.always (Samples.with_id 9)) [] _
           (Samples.update (Some 0)) (Samples.with_id 9) None eq_refl).
Defined.

(* ===================================================================== *)
(** ** The order and number of requests *)
(* ===================================================================== *)

(** Whatever the network answers, [createPersona] and [updatePersona] issue
    a prompt request first and at most one more request, to the persona
    endpoint; no request is repeated. *)
Theorem prompt_then_at_most_one_persona (net : Network) (log : list Request) :
  (forall r : C.t,
     exists q1, is_prompt_url q1 = true /\
       (issued (createPersona r) net log = [q1] \/
        exists q2, is_persona_url q2 = true /\ q1 <> q2 /\
                   issued (createPersona r) net log = [q1; q2])) /\
  (forall r : U.t,
     exists q1, is_prompt_url q1 = true /\
       (issued (updatePersona r) net log = [q1] \/
        exists q2, is_persona_url q2 = true /\ q1 <> q2 /\
                   issued (updatePersona r) net log = [q1; q2])).
Proof.
  assert (Hne : forall q1 q2, is_prompt_url q1 = true -> is_persona_url q2 = true ->
                              q1 <> q2).
  { intros q1 q2 H1 H2 ->. unfold is_prompt_url, is_persona_url in *.
    let v := eval vm_compute in (lit "/api/prompt") in
      change (lit "/api/prompt") with v in H1.
    let v := eval vm_compute in (lit "/api/admin/persona") in
      change (lit "/api/admin/persona") with v in H2.
    destruct (url q2) as [|c0 [|c1 [|c2 [|c3 [|c4 [|c5 u]]]]]];
      cbn [prefixb] in H1, H2; try discriminate;
      rewrite ?andb_true_iff, ?Z.eqb_eq in H1, H2;
      intuition (try discriminate; lia). }
  split.
  - intros r. eexists. split; [|unfold issued; run_create].
    2:{ destruct (net log _) as [r1|e]; cbn [snd].
        - destruct (ok r1); cbn [snd].
          + destruct (body_json r1) as [v|]; cbn [snd].
            * destruct (get_id v) as [e|p]; cbn [snd].
              -- left. apply skipn_app_exact.
              -- destruct (strict_neq_null p); cbn [snd].
                 ++ right. exists (createPersona_request r p).
                    split; [reflexivity|]. split; [now apply Hne|].
                    apply skipn_app_exact.
                 ++ left. apply skipn_app_exact.
            * left. apply skipn_app_exact.
          + left. apply skipn_app_exact.
        - left. apply skipn_app_exact. }
    reflexivity.
  - intros r.
    assert (Hprompt : exists q1, is_prompt_url q1 = true /\
                        snd (updatePersona_prompt r net log) = log ++ [q1]).
    { rewrite updatePersona_prompt_run.
      destruct (U.existingPromptId r) as [existing|]; cbv zeta.
      - eexists. split; [|destruct (net log _); reflexivity]. reflexivity.
      - eexists. split.
        2:{ destruct (net log _) as [r1|e]; [|reflexivity].
            destruct (ok r1); [|reflexivity].
            destruct (body_json r1) as [v|]; [|reflexivity].
            destruct (get_id v); reflexivity. }
        reflexivity. }
    destruct Hprompt as (q1 & Hq1 & Hlog). exists q1. split; [exact Hq1|].
    unfold issued. rewrite updatePersona_run.
    destruct (updatePersona_prompt r net log) as [[[r1 p]|e] log1];
      cbn [snd] in Hlog; subst log1.
    + destruct (ok r1 && truthy p); cbn [snd].
      * right. exists (updatePersona_request r p).
        split; [reflexivity|]. split; [now apply Hne|].
        rewrite <- app_assoc. apply skipn_app_exact.
      * left. apply skipn_app_exact.
    + left. apply skipn_app_exact.
Qed.

(* ===================================================================== *)
(** ** The two guards on the id of a new prompt *)
(* ===================================================================== *)

Lemma truthy_not_null p : truthy p = true -> strict_neq_null p = true.
Proof. destruct p; cbn; congruence. Qed.

Lemma falsy_not_null_iff p :
  strict_neq_null p = true /\ truthy p = false <-> falsy_not_null p.
Proof.
  unfold falsy_not_null. split.
  - intros [Hn Ht]. destruct p as [| |b|n|s| |]; cbn in Hn, Ht; try discriminate; auto.
    + destruct b; [discriminate | auto].
    + apply negb_false_iff, Z.eqb_eq in Ht. subst. auto.
    + destruct s; [auto | discriminate].
  - intros [-> | [-> | [-> | ->]]]; split; reflexivity.
Qed.

(** For one and the same ok prompt-create answer with parsed id [p],
    [createPersona] goes on to the persona call unless [p] is [null], and
    [updatePersona] (without an existing prompt) goes on only if [p] is
    truthy. Whenever the update goes on, so does the creation; they part
    exactly on the ids [undefined], [false], [0] and the empty string, which
    the creation sends on as [prompt_ids] and the update rejects. *)
Theorem id_guards_compared (net : Network) (log : list Request)
    (rc : C.t) (ru : U.t) (r1 : Response) (v p : jsval) :
  let qc := createPrompt_request (C.name rc) (C.system_prompt rc) (C.task_prompt rc) in
  let qu := createPrompt_request (U.name ru) (U.system_prompt ru) (U.task_prompt ru) in
  ok r1 = true -> body_json r1 = Some v -> get_id v = inr p ->
  U.existingPromptId ru = None ->
  net log qc = Fulfilled r1 -> net log qu = Fulfilled r1 ->
  issued (createPersona rc) net log =
    (if strict_neq_null p then [qc; createPersona_request rc p] else [qc]) /\
  issued (updatePersona ru) net log =
    (if truthy p then [qu; updatePersona_request ru p] else [qu]) /\
  (truthy p = true -> strict_neq_null p = true) /\
  (strict_neq_null p = true /\ truthy p = false <-> falsy_not_null p).
Proof.
  intros qc qu Hok Hbody Hid Hex Hc Hu.
  split; [|split; [|split; [apply truthy_not_null | apply falsy_not_null_iff]]].
  - unfold issued. run_create. fold qc. known.
    destruct (strict_neq_null p); cbn [snd]; apply skipn_app_exact.
  - unfold issued. run_update. rewrite Hex. cbv zeta. fold qu. known.
    rewrite ?Hok. cbn [andb]. destruct (truthy p); cbn [snd].
    + rewrite <- ?app_assoc. apply skipn_app_exact.
    + apply skipn_app_exact.
Qed.

Lemma id_guards_compared_witness :
  issued (createPersona Samples.creation) (Samples.always (Samples.with_id 0)) [] =
    [createPrompt_request (lit "Bot") (lit "You are a bot.") (lit "Answer.");
     createPersona_request Samples.creation (JNum 0)] /\
  issued (updatePersona (Samples.update None)) (Samples.always (Samples.with_id 0)) [] =
    [createPrompt_request (lit "Bot") (lit "You are a bot.") (lit "Answer.")].
Proof.
  destruct (id_guards_compared (Samples.always (Samples.with_id 0)) []
              Samples.creation (Samples.update None) (Samples.with_id 0)
              _ (JNum 0) eq_refl eq_refl eq_refl eq_refl eq_refl eq_refl)
    as (Hc & Hu & _).
  split; [exact Hc | exact Hu].
Defined.

(* ===================================================================== *)
(** ** The query string, unit by unit *)
(* ===================================================================== *)

(** Induction that follows [Encode]: one unit, or a pair, at a time. *)
Lemma units_pair_ind (P : list Z -> Prop) :
  P [] ->
  (forall c, P [c]) ->
  (forall c d rest, P rest -> P (d :: rest) -> P (c :: d :: rest)) ->
  forall s : list Z, P s.
Proof.
  intros Hnil Hone Hcons s.
  enough (H : P s /\ forall c, P (c :: s)) by apply H.
  induction s as [|d rest [IH1 IH2]]; split; auto.
Qed.

Lemma uri_unreserved_cases c :
  uri_unreserved c = true ->
  65 <= c <= 90 \/ 97 <= c <= 122 \/ 48 <= c <= 57 \/
  c = 45 \/ c = 95 \/ c = 46 \/ c = 33 \/ c = 126 \/ c = 42 \/ c = 39 \/
  c = 40 \/ c = 41.
Proof.
  unfold uri_unreserved. cbn [lit list_ascii_of_string map existsb].
  rewrite !orb_true_iff, !andb_true_iff, !Z.leb_le, !Z.eqb_eq.
  cbn. intuition lia.
Qed.

Lemma uri_safe_cases c :
  uri_safe c = true ->
  65 <= c <= 90 \/ 97 <= c <= 122 \/ 48 <= c <= 57 \/
  c = 45 \/ c = 95 \/ c = 46 \/ c = 33 \/ c = 126 \/ c = 42 \/ c = 39 \/
  c = 40 \/ c = 41 \/ c = 37.
Proof.
  unfold uri_safe. rewrite orb_true_iff, Z.eqb_eq. intros [H | H].
  - apply uri_unreserved_cases in H. intuition lia.
  - intuition lia.
Qed.

Lemma hex_upper_safe d : 0 <= d < 16 -> uri_safe (hex_digit true d) = true.
Proof.
  intros H.
  assert (E : d = 0 \/ d = 1 \/ d = 2 \/ d = 3 \/ d = 4 \/ d = 5 \/ d = 6 \/ d = 7 \/
              d = 8 \/ d = 9 \/ d = 10 \/ d = 11 \/ d = 12 \/ d = 13 \/ d = 14 \/
              d = 15) by lia.
  repeat (destruct E as [-> | E]; [reflexivity|]). subst. reflexivity.
Qed.

Lemma percent_octet_safe b :
  0 <= b < 256 -> Forall (fun c => uri_safe c = true) (percent_octet b).
Proof.
  intros H. unfold percent_octet.
  repeat constructor; apply hex_upper_safe; Z.to_euclidean_division_equations; lia.
Qed.

Lemma lor_octet a b : 0 <= a < 256 -> 0 <= b < 256 -> 0 <= Z.lor a b < 256.
Proof.
  intros Ha Hb.
  assert (Hn : 0 <= Z.lor a b) by (apply Z.lor_nonneg; lia).
  split; [exact Hn|].
  destruct (Z.eq_dec (Z.lor a b) 0) as [-> | Hz]; [lia|].
  change 256 with (2 ^ 8). apply Z.log2_lt_pow2; [lia|].
  rewrite Z.log2_lor by lia.
  assert (La : Z.log2 a < 8).
  { destruct (Z.eq_dec a 0) as [-> | ?]; [reflexivity|].
    apply Z.log2_lt_pow2; [lia|]. change (2 ^ 8) with 256. lia. }
  assert (Lb : Z.log2 b < 8).
  { destruct (Z.eq_dec b 0) as [-> | ?]; [reflexivity|].
    apply Z.log2_lt_pow2; [lia|]. change (2 ^ 8) with 256. lia. }
  lia.
Qed.

Lemma land_63 x : 0 <= x -> 0 <= Z.land x 0x3F < 64.
Proof.
  intros H. change 0x3F with (Z.ones 6). rewrite Z.land_ones by lia.
  change (2 ^ 6) with 64. Z.to_euclidean_division_equations. lia.
Qed.

Lemma utf8_octets_are_octets cp :
  0 <= cp < 0x110000 -> Forall (fun b => 0 <= b < 256) (utf8_octets cp).
Proof.
  intros H. unfold utf8_octets.
  assert (S6 : Z.shiftr cp 6 = cp / 64) by (rewrite Z.shiftr_div_pow2 by lia; reflexivity).
  assert (S12 : Z.shiftr cp 12 = cp / 4096)
    by (rewrite Z.shiftr_div_pow2 by lia; reflexivity).
  assert (S18 : Z.shiftr cp 18 = cp / 262144)
    by (rewrite Z.shiftr_div_pow2 by lia; reflexivity).
  assert (L0 := land_63 cp).
  assert (L6 := land_63 (cp / 64)).
  assert (L12 := land_63 (cp / 4096)).
  rewrite S6, S12, S18.
  destruct (cp <? 0x80) eqn:E1; [apply Z.ltb_lt in E1; repeat constructor; lia|].
  apply Z.ltb_ge in E1.
  destruct (cp <? 0x800) eqn:E2.
  { apply Z.ltb_lt in E2.
    repeat constructor; apply lor_octet; try lia;
      try (Z.to_euclidean_division_equations; lia). }
  apply Z.ltb_ge in E2.
  destruct (cp <? 0x10000) eqn:E3.
  { apply Z.ltb_lt in E3.
    assert (0 <= cp / 64) by (Z.to_euclidean_division_equations; lia).
    repeat constructor; apply lor_octet; try lia;
      try (Z.to_euclidean_division_equations; lia). }
  apply Z.ltb_ge in E3.
  assert (0 <= cp / 64) by (Z.to_euclidean_division_equations; lia).
  assert (0 <= cp / 4096) by (Z.to_euclidean_division_equations; lia).
  repeat constructor; apply lor_octet; try lia;
    try (Z.to_euclidean_division_equations; lia).
Qed.

Lemma percent_code_point_safe cp :
  0 <= cp < 0x110000 -> Forall (fun c => uri_safe c = true) (percent_code_point cp).
Proof.
  intros H. unfold percent_code_point.
  pose proof (utf8_octets_are_octets cp H) as Hb.
  induction Hb as [|b bs Hb _ IH]; cbn [flat_map]; [constructor|].
  apply Forall_app. split; [now apply percent_octet_safe | exact IH].
Qed.

Lemma surrogate_pair_range c d :
  is_leading_surrogate c = true -> is_trailing_surrogate d = true ->
  0x10000 <= surrogate_pair_to_code_point c d < 0x110000.
Proof.
  unfold is_leading_surrogate, is_trailing_surrogate, surrogate_pair_to_code_point.
  rewrite !andb_true_iff, !Z.leb_le. lia.
Qed.

Lemma Encode_cons c rest :
  Encode (c :: rest) =
  if uri_unreserved c then
    match Encode rest with inr r => inr (c :: r) | inl e => inl e end
  else if is_leading_surrogate c then
    match rest with
    | d :: rest' =>
        if is_trailing_surrogate d then
          match Encode rest' with
          | inr r => inr (percent_code_point (surrogate_pair_to_code_point c d) ++ r)
          | inl e => inl e
          end
        else inl URIError
    | [] => inl URIError
    end
  else if is_trailing_surrogate c then inl URIError
  else match Encode rest with
       | inr r => inr (percent_code_point c ++ r)
       | inl e => inl e
       end.
Proof. reflexivity. Qed.

(** What [Encode] returns is made of unreserved characters and percent
    signs. *)
Lemma Encode_output_safe s :
  Forall is_code_unit s ->
  forall t, Encode s = inr t -> Forall (fun c => uri_safe c = true) t.
Proof.
  assert (Hsingle : forall c rest,
            (forall t, Encode rest = inr t -> Forall (fun c => uri_safe c = true) t) ->
            is_code_unit c ->
            forall t,
              match Encode rest with
              | inr r => inr (percent_code_point c ++ r)
              | inl e => @inl error jsstring e
              end = inr t ->
              Forall (fun c => uri_safe c = true) t).
  { intros c rest IH Hc t Ht.
    destruct (Encode rest) as [e|r]; [discriminate|]. inversion Ht; subst.
    apply Forall_app. split; [|now apply IH].
    apply percent_code_point_safe. unfold is_code_unit in Hc. lia. }
  assert (Hplain : forall c rest,
            (forall t, Encode rest = inr t -> Forall (fun c => uri_safe c = true) t) ->
            uri_unreserved c = true ->
            forall t,
              match Encode rest with
              | inr r => inr (c :: r)
              | inl e => @inl error jsstring e
              end = inr t ->
              Forall (fun c => uri_safe c = true) t).
  { intros c rest IH Hu t Ht.
    destruct (Encode rest) as [e|r]; [discriminate|]. inversion Ht; subst.
    constructor; [|now apply IH]. unfold uri_safe. rewrite Hu. reflexivity. }
  induction s as [|c|c d rest IH1 IH2] using units_pair_ind; intros Hs t.
  - intros [= <-]. constructor.
  - inversion Hs; subst. rewrite Encode_cons.
    destruct (uri_unreserved c) eqn:Hu.
    + apply Hplain; [|exact Hu]. intros t' [= <-]. constructor.
    + destruct (is_leading_surrogate c); [discriminate|].
      destruct (is_trailing_surrogate c); [discriminate|].
      apply Hsingle; [|assumption]. intros t' [= <-]. constructor.
  - inversion Hs as [|? ? Hc Hs']; subst. rewrite Encode_cons.
    destruct (uri_unreserved c) eqn:Hu.
    + apply Hplain; auto.
    + destruct (is_leading_surrogate c) eqn:Hl.
      * destruct (is_trailing_surrogate d) eqn:Ht; [|discriminate].
        inversion Hs'; subst.
        destruct (Encode rest) as [e|r] eqn:Hr; [discriminate|].
        intros [= <-]. apply Forall_app. split; [|now apply IH1].
        apply percent_code_point_safe.
        pose proof (surrogate_pair_range c d Hl Ht). lia.
      * destruct (is_trailing_surrogate c); [discriminate|].
        apply Hsingle; auto.
Qed.

Lemma queryString_inv systemPrompt taskPrompt retrievalDisabled qs :
  queryString systemPrompt taskPrompt retrievalDisabled = inr qs ->
  exists es et,
    Encode systemPrompt = inr es /\ Encode taskPrompt = inr et /\
    qs = lit "system_prompt=" ++ es ++ lit "&task_prompt=" ++ et ++
         lit "&retrieval_disabled=" ++ Boolean_toString retrievalDisabled.
Proof.
  destruct Encode_literal_keys as (K1 & K2 & K3).
  unfold queryString, Array_map, encode_entry, encodeURIComponent.
  cbn [fst snd ToString]. rewrite K1, K2, K3, Encode_boolean.
  destruct (Encode systemPrompt) as [e|es]; [discriminate|].
  destruct (Encode taskPrompt) as [e|et]; [discriminate|].
  intros [= <-]. exists es, et. split; [reflexivity|]. split; [reflexivity|].
  cbn [join]. rewrite <- ?app_assoc. reflexivity.
Qed.

Lemma safe_count_zero t x :
  uri_safe x = false ->
  Forall (fun c => uri_safe c = true) t -> count_occ Z.eq_dec t x = 0%nat.
Proof.
  intros Hx Ht. induction Ht as [|c t Hc _ IH]; [reflexivity|].
  cbn [count_occ]. destruct (Z.eq_dec c x) as [-> | _]; [congruence | exact IH].
Qed.

(** Whatever the two prompts hold, the query string that [buildFinalPrompt]
    sends has exactly two [&] and three [=]: the encoded prompts are made of
    unreserved characters and percent signs only, so the text of a prompt
    cannot add a parameter or end the query. *)
Theorem queryString_separators (systemPrompt taskPrompt : jsstring)
    (retrievalDisabled : bool) (qs : jsstring) :
  Forall is_code_unit systemPrompt ->
  Forall is_code_unit taskPrompt ->
  queryString systemPrompt taskPrompt retrievalDisabled = inr qs ->
  exists es et,
    qs = lit "system_prompt=" ++ es ++ lit "&task_prompt=" ++ et ++
         lit "&retrieval_disabled=" ++ Boolean_toString retrievalDisabled /\
    Forall (fun c => uri_safe c = true) es /\
    Forall (fun c => uri_safe c = true) et /\
    count_occ Z.eq_dec qs 38 = 2%nat /\
    count_occ Z.eq_dec qs 61 = 3%nat /\
    count_occ Z.eq_dec qs 35 = 0%nat /\
    count_occ Z.eq_dec qs 32 = 0%nat.
Proof.
  intros Hs Ht Hq.
  destruct (queryString_inv _ _ _ _ Hq) as (es & et & Hes & Het & ->).
  pose proof (Encode_output_safe _ Hs _ Hes) as Ses.
  pose proof (Encode_output_safe _ Ht _ Het) as Set_.
  exists es, et. split; [reflexivity|]. split; [exact Ses|]. split; [exact Set_|].
  rewrite !count_occ_app.
  rewrite !(safe_count_zero es) by (reflexivity || exact Ses).
  rewrite !(safe_count_zero et) by (reflexivity || exact Set_).
  destruct retrievalDisabled; repeat split; reflexivity.
Qed.

Lemma queryString_separators_witness :
  exists es et,
    lit "system_prompt=a%26b%3D1&task_prompt=%23%20x&retrieval_disabled=false" =
      lit "system_prompt=" ++ es ++ lit "&task_prompt=" ++ et ++
      lit "&retrieval_disabled=" ++ Boolean_toString false /\
    Forall (fun c => uri_safe c = true) es /\
    Forall (fun c => uri_safe c = true) et /\
    count_occ Z.eq_dec
      (lit "system_prompt=a%26b%3D1&task_prompt=%23%20x&retrieval_disabled=false")
      38 = 2%nat /\
    count_occ Z.eq_dec
      (lit "system_prompt=a%26b%3D1&task_prompt=%23%20x&retrieval_disabled=false")
      61 = 3%nat /\
    count_occ Z.eq_dec
      (lit "system_prompt=a%26b%3D1&task_prompt=%23%20x&retrieval_disabled=false")
      35 = 0%nat /\
    count_occ Z.eq_dec
      (lit "system_prompt=a%26b%3D1&task_prompt=%23%20x&retrieval_disabled=false")
      32 = 0%nat.
Proof.
  refine (queryString_separators (lit "a&b=1") (lit "# x") false _ _ _ eq_refl).
  - repeat constructor; unfold is_code_unit; cbn; lia.
  - repeat constructor; unfold is_code_unit; cbn; lia.
Defined.

Lemma percent_code_point_length cp :
  List.length (percent_code_point cp) = (3 * List.length (utf8_octets cp))%nat.
Proof.
  unfold percent_code_point.
  induction (utf8_octets cp) as [|b bs IH]; [reflexivity|].
  cbn [flat_map]. rewrite length_app, IH. cbn [percent_octet List.length]. lia.
Qed.

Lemma utf8_octets_length cp :
  (1 <= List.length (utf8_octets cp) <= 4)%nat /\
  (cp < 0x10000 -> (List.length (utf8_octets cp) <= 3)%nat).
Proof.
  unfold utf8_octets.
  destruct (cp <? 0x80); [cbn; lia|].
  destruct (cp <? 0x800); [cbn; lia|].
  destruct (cp <? 0x10000) eqn:E; [cbn; lia|].
  apply Z.ltb_ge in E. cbn [List.length]. lia.
Qed.

(** An encoded component is at least as long as the text, and at most nine
    times as long. *)
Lemma Encode_length s :
  Forall is_code_unit s ->
  forall t, Encode s = inr t ->
            (List.length s <= List.length t <= 9 * List.length s)%nat.
Proof.
  assert (Hone : forall c, is_code_unit c ->
            (1 <= List.length (percent_code_point c) <= 9)%nat).
  { intros c Hc. rewrite percent_code_point_length.
    destruct (utf8_octets_length c) as [H1 H2]. unfold is_code_unit in Hc.
    specialize (H2 (proj2 Hc)). lia. }
  assert (Hpair : forall cp, (2 <= List.length (percent_code_point cp) <= 18)%nat).
  { intros cp. rewrite percent_code_point_length.
    destruct (utf8_octets_length cp) as [H1 _]. lia. }
  induction s as [|c|c d rest IH1 IH2] using units_pair_ind; intros Hs t.
  - intros [= <-]. cbn. lia.
  - inversion Hs as [|? ? Hc ?]; subst. rewrite Encode_cons. cbn [Encode].
    destruct (uri_unreserved c).
    + intros [= <-]. cbn. lia.
    + destruct (is_leading_surrogate c); [discriminate|].
      destruct (is_trailing_surrogate c); [discriminate|].
      intros [= <-]. rewrite app_nil_r. specialize (Hone c Hc).
      cbn [List.length]. lia.
  - inversion Hs as [|? ? Hc Hs']; subst. rewrite Encode_cons.
    destruct (uri_unreserved c).
    + destruct (Encode (d :: rest)) as [e|r] eqn:Hr; [discriminate|].
      intros [= <-]. specialize (IH2 Hs' r eq_refl). cbn [List.length] in *. lia.
    + destruct (is_leading_surrogate c).
      * destruct (is_trailing_surrogate d); [|discriminate].
        inversion Hs'; subst.
        destruct (Encode rest) as [e|r] eqn:Hr; [discriminate|].
        intros [= <-]. specialize (IH1 ltac:(assumption) r eq_refl).
        rewrite length_app.
        specialize (Hpair (surrogate_pair_to_code_point c d)).
        cbn [List.length] in *. lia.
      * destruct (is_trailing_surrogate c); [discriminate|].
        destruct (Encode (d :: rest)) as [e|r] eqn:Hr; [discriminate|].
        intros [= <-]. specialize (IH2 Hs' r eq_refl). specialize (Hone c Hc).
        rewrite length_app. cbn [List.length] in *. lia.
Qed.

(** The query string grows with the prompts, and by no more than nine units
    for each unit of prompt: its length lies between
    [|systemPrompt| + |taskPrompt| + 51] and
    [9 * (|systemPrompt| + |taskPrompt|) + 52]. *)
Theorem queryString_length (systemPrompt taskPrompt : jsstring)
    (retrievalDisabled : bool) (qs : jsstring) :
  Forall is_code_unit systemPrompt ->
  Forall is_code_unit taskPrompt ->
  queryString systemPrompt taskPrompt retrievalDisabled = inr qs ->
  (List.length systemPrompt + List.length taskPrompt + 51 <= List.length qs)%nat /\
  (List.length qs <= 9 * (List.length systemPrompt + List.length taskPrompt) + 52)%nat.
Proof.
  intros Hs Ht Hq.
  destruct (queryString_inv _ _ _ _ Hq) as (es & et & Hes & Het & ->).
  pose proof (Encode_length _ Hs _ Hes) as Les.
  pose proof (Encode_length _ Ht _ Het) as Let_.
  rewrite !length_app.
  assert (Lb : (4 <= List.length (Boolean_toString retrievalDisabled) <= 5)%nat)
    by (destruct retrievalDisabled; cbn; lia).
  change (List.length (lit "system_prompt=")) with 14%nat.
  change (List.length (lit "&task_prompt=")) with 13%nat.
  change (List.length (lit "&retrieval_disabled=")) with 20%nat.
  lia.
Qed.

Lemma queryString_length_witness :
  (List.length (lit "sys a") + List.length (lit "task/b") + 51 <=
     List.length (lit "system_prompt=sys%20a&task_prompt=task%2Fb&retrieval_disabled=true"))%nat /\
  (List.length (lit "system_prompt=sys%20a&task_prompt=task%2Fb&retrieval_disabled=true")
     <= 9 * (List.length (lit "sys a") + List.length (lit "task/b")) + 52)%nat.
Proof.
  refine (queryString_length (lit "sys a") (lit "task/b") true _ _ _ eq_refl).
  - repeat constructor; unfold is_code_unit; cbn; lia.
  - repeat constructor; unfold is_code_unit; cbn; lia.
Defined.

Lemma Encode_unreserved s :
  Forall (fun c => uri_unreserved c = true) s -> Encode s = inr s.
Proof.
  induction 1 as [|c s Hc _ IH]; [reflexivity|].
  rewrite Encode_cons, Hc, IH. reflexivity.
Qed.

(** Prompts written with letters, digits and [- _ . ! ~ * ' ( )] alone go
    into the URL as they are: [buildFinalPrompt] then always returns the
    promise of one GET, whose URL holds the two prompts verbatim. *)
Theorem buildFinalPrompt_unreserved (systemPrompt taskPrompt : jsstring)
    (retrievalDisabled : bool) :
  Forall (fun c => uri_unreserved c = true) systemPrompt ->
  Forall (fun c => uri_unreserved c = true) taskPrompt ->
  let q := {| method := GET;
              url := lit "/api/persona/utils/prompt-explorer?system_prompt=" ++
                     systemPrompt ++ lit "&task_prompt=" ++ taskPrompt ++
                     lit "&retrieval_disabled=" ++ Boolean_toString retrievalDisabled;
              headers := [];
              body := None |} in
  exists p,
    buildFinalPrompt systemPrompt taskPrompt retrievalDisabled = inr p /\
    forall net log, p net log = (net log q, log ++ [q]).
Proof.
  intros Hs Ht q.
  destruct Encode_literal_keys as (K1 & K2 & K3).
  unfold buildFinalPrompt, queryString, Array_map, encode_entry, encodeURIComponent.
  cbn [fst snd ToString].
  rewrite K1, K2, K3, Encode_boolean, (Encode_unreserved _ Hs), (Encode_unreserved _ Ht).
  eexists. split; [reflexivity|]. intros net log.
  unfold fetch, buildFinalPrompt_request, q. cbn [join].
  rewrite <- ?app_assoc. reflexivity.
Qed.

Lemma buildFinalPrompt_unreserved_witness :
  exists p,
    buildFinalPrompt (lit "Be_brief.") (lit "Answer!") false = inr p /\
    forall net log,
      p net log =
      (net log
         {| method := GET;
            url := lit "/api/persona/utils/prompt-explorer?system_prompt=" ++
                   lit "Be_brief." ++ lit "&task_prompt=" ++ lit "Answer!" ++
                   lit "&retrieval_disabled=" ++ Boolean_toString false;
            headers := [];
            body := None |},
       log ++
       [{| method := GET;
           url := lit "/api/persona/utils/prompt-explorer?system_prompt=" ++
                  lit "Be_brief." ++ lit "&task_prompt=" ++ lit "Answer!" ++
                  lit "&retrieval_disabled=" ++ Boolean_toString false;
           headers := [];
           body := None |}]).
Proof.
  refine (buildFinalPrompt_unreserved (lit "Be_brief.") (lit "Answer!") false _ _);
    repeat constructor.
Defined.

(* ===================================================================== *)
(** ** Ids in URLs *)
(* ===================================================================== *)

Lemma lit_inj a b : lit a = lit b -> a = b.
Proof.
  unfold lit. intros H.
  rewrite <- (string_of_list_ascii_of_string a), <- (string_of_list_ascii_of_string b).
  f_equal. revert H.
  generalize (list_ascii_of_string a) (list_ascii_of_string b).
  induction l as [|x l IH]; intros [|y l']; cbn [map]; try discriminate; auto.
  intros [= Hxy Hl]. f_equal; [|now apply IH].
  apply N2Z.inj in Hxy.
  rewrite <- (ascii_N_embedding x), <- (ascii_N_embedding y), Hxy. reflexivity.
Qed.

Lemma to_int_proper n : Z.to_int n <> Decimal.Pos Decimal.Nil /\
                        Z.to_int n <> Decimal.Neg Decimal.Nil.
Proof.
  destruct n as [|p|p]; cbn; split; try discriminate;
    intros [= H]; now apply Unsigned.to_uint_nonnil in H.
Qed.

Lemma Number_toString_inj a b : Number_toString a = Number_toString b -> a = b.
Proof.
  unfold Number_toString. intros H. apply lit_inj in H.
  apply DecimalZ.to_int_inj.
  destruct (to_int_proper a) as [Ha1 Ha2], (to_int_proper b) as [Hb1 Hb2].
  apply (f_equal NilZero.int_of_string) in H.
  rewrite !NilZero.isi in H by assumption. now injection H.
Qed.

Lemma digits_of_uint d :
  Forall (fun c => is_digit c = true) (lit (NilEmpty.string_of_uint d)).
Proof.
  induction d; cbn [NilEmpty.string_of_uint]; try constructor;
    try reflexivity; try exact IHd.
Qed.

Lemma Number_toString_digits n :
  exists ds, ds <> [] /\ Forall (fun c => is_digit c = true) ds /\
             Number_toString n = (if n <? 0 then [45] else []) ++ ds.
Proof.
  unfold Number_toString. destruct n as [|p|p].
  - exists (lit "0"). repeat split; [discriminate | repeat constructor].
  - exists (lit (NilEmpty.string_of_uint (Pos.to_uint p))).
    pose proof (Unsigned.to_uint_nonnil p) as Hp.
    split; [|split; [apply digits_of_uint|]].
    + destruct (Pos.to_uint p); try discriminate. congruence.
    + cbn [Z.to_int NilZero.string_of_int NilZero.string_of_uint Z.ltb Z.compare app].
      destruct (Pos.to_uint p); try reflexivity. congruence.
  - exists (lit (NilEmpty.string_of_uint (Pos.to_uint p))).
    pose proof (Unsigned.to_uint_nonnil p) as Hp.
    split; [|split; [apply digits_of_uint|]].
    + destruct (Pos.to_uint p); try discriminate. congruence.
    + cbn [Z.to_int NilZero.string_of_int NilZero.string_of_uint Z.ltb Z.compare app].
      destruct (Pos.to_uint p); try reflexivity. congruence.
Qed.

(** For ids that are safe integers, the path of an id-addressed request
    names its id and nothing else: two requests of [deletePersona], of
    [updatePrompt] or of the persona step of [updatePersona] go to the same
    URL only for the same id, and the id adds no slash, question mark or
    hash to the fixed path. *)
Theorem id_paths_faithful :
  (forall a b, is_safe_integer a -> is_safe_integer b ->
     (deletePersona_request a = deletePersona_request b <-> a = b)) /\
  (forall a b n s t n' s' t', is_safe_integer a -> is_safe_integer b ->
     url (updatePrompt_request a n s t) = url (updatePrompt_request b n' s' t') ->
     a = b) /\
  (forall r r' p p', is_safe_integer (U.id r) -> is_safe_integer (U.id r') ->
     url (updatePersona_request r p) = url (updatePersona_request r' p') ->
     U.id r = U.id r') /\
  (forall personaId, is_safe_integer personaId ->
     count_occ Z.eq_dec (url (deletePersona_request personaId)) 47 = 4%nat /\
     count_occ Z.eq_dec (url (deletePersona_request personaId)) 63 = 0%nat /\
     count_occ Z.eq_dec (url (deletePersona_request personaId)) 35 = 0%nat).
Proof.
  split; [|split; [|split]].
  - intros a b _ _. split; [|intros ->; reflexivity].
    intros [= H]. now apply Number_toString_inj.
  - intros a b n s t n' s' t' _ _ H. cbn [url updatePrompt_request] in H.
    apply app_inv_head in H. now apply Number_toString_inj.
  - intros r r' p p' _ _ H. cbn [url updatePersona_request] in H.
    apply app_inv_head in H. now apply Number_toString_inj.
  - intros personaId _. cbn [url deletePersona_request].
    destruct (Number_toString_digits personaId) as (ds & _ & Hds & ->).
    assert (Hz : forall x, is_digit x = false -> count_occ Z.eq_dec ds x = 0%nat).
    { intros x Hx. induction Hds as [|c ds Hc _ IH]; [reflexivity|].
      cbn [count_occ]. destruct (Z.eq_dec c x) as [-> | _]; [congruence | exact IH]. }
    rewrite !count_occ_app, !Hz by reflexivity.
    destruct (personaId <? 0); repeat split; reflexivity.
Qed.

Lemma id_paths_faithful_witness :
  (deletePersona_request 99 = deletePersona_request 42 <-> 99 = 42) /\
  (url (updatePrompt_request 42 (lit "Bot") [] []) =
   url (updatePrompt_request 42 (lit "Bob") [] []) -> 42 = 42) /\
  count_occ Z.eq_dec (url (deletePersona_request 99)) 47 = 4%nat.
Proof.
  destruct id_paths_faithful as (Hd & Hp & _ & Hs).
  split; [|split].
  - apply Hd; unfold is_safe_integer; lia.
  - apply Hp; unfold is_safe_integer; lia.
  - apply (Hs 99). unfold is_safe_integer. lia.
Defined.

(* ===================================================================== *)
(** ** The derived prompt *)
(* ===================================================================== *)

(** The derived name begins with the fixed prefix and is followed by the
    persona name, so that two personas share a derived prompt name only if
    they share their name. *)
Theorem promptNameFromPersonaName_injective :
  (forall a b,
     promptNameFromPersonaName a = promptNameFromPersonaName b -> a = b) /\
  (forall a, prefixb (lit "default-prompt__") (promptNameFromPersonaName a) = true) /\
  (forall a, List.length (promptNameFromPersonaName a) = (16 + List.length a)%nat).
Proof.
  split; [|split].
  - intros a b H. now apply app_inv_head in H.
  - intros a. reflexivity.
  - intros a. unfold promptNameFromPersonaName. rewrite length_app. reflexivity.
Qed.

Lemma quote_units_cons c rest :
  quote_units (c :: rest) =
  if c =? 8 then lit "\b" ++ quote_units rest
  else if c =? 9 then lit "\t" ++ quote_units rest
  else if c =? 10 then lit "\n" ++ quote_units rest
  else if c =? 12 then lit "\f" ++ quote_units rest
  else if c =? 13 then lit "\r" ++ quote_units rest
  else if c =? 34 then [92; 34] ++ quote_units rest
  else if c =? 92 then [92; 92] ++ quote_units rest
  else if c <? 32 then unicode_escape c ++ quote_units rest
  else if is_leading_surrogate c then
    match rest with
    | d :: rest' =>
        if is_trailing_surrogate d then c :: d :: quote_units rest'
        else unicode_escape c ++ quote_units rest
    | [] => unicode_escape c
    end
  else if is_trailing_surrogate c then unicode_escape c ++ quote_units rest
  else c :: quote_units rest.
Proof. reflexivity. Qed.

Lemma hex_lower_is_hex d : 0 <= d < 16 -> is_hex_digit (hex_digit false d) = true.
Proof.
  intros H.
  assert (E : d = 0 \/ d = 1 \/ d = 2 \/ d = 3 \/ d = 4 \/ d = 5 \/ d = 6 \/ d = 7 \/
              d = 8 \/ d = 9 \/ d = 10 \/ d = 11 \/ d = 12 \/ d = 13 \/ d = 14 \/
              d = 15) by lia.
  repeat (destruct E as [-> | E]; [reflexivity|]). subst. reflexivity.
Qed.

Lemma json_string_chars_escape c t :
  json_string_chars (unicode_escape c ++ t) = json_string_chars t.
Proof.
  unfold unicode_escape.
  change (lit "\u") with [92; 117]. cbn [app json_string_chars].
  change (92 =? 92) with true. change (117 =? 117) with true. cbv iota.
  rewrite !hex_lower_is_hex by (Z.to_euclidean_division_equations; lia).
  reflexivity.
Qed.

Lemma json_string_chars_plain c t :
  (c =? 92) = false -> (c =? 34) = false -> (c <? 32) = false ->
  json_string_chars (c :: t) = json_string_chars t.
Proof. intros H1 H2 H3. cbn [json_string_chars]. rewrite H1, H2, H3. reflexivity. Qed.

(** What [quote_units] writes obeys the grammar of a JSON string, whatever
    follows it. *)
Lemma json_string_chars_quote_units s :
  forall t, json_string_chars (quote_units s ++ t) = json_string_chars t.
Proof.
  assert (Hstep : forall c rest,
            (forall t, json_string_chars (quote_units rest ++ t) = json_string_chars t) ->
            forall t,
              json_string_chars
                ((if c =? 8 then lit "\b" ++ quote_units rest
                  else if c =? 9 then lit "\t" ++ quote_units rest
                  else if c =? 10 then lit "\n" ++ quote_units rest
                  else if c =? 12 then lit "\f" ++ quote_units rest
                  else if c =? 13 then lit "\r" ++ quote_units rest
                  else if c =? 34 then [92; 34] ++ quote_units rest
                  else if c =? 92 then [92; 92] ++ quote_units rest
                  else if c <? 32 then unicode_escape c ++ quote_units rest
                  else if is_leading_surrogate c
                       then unicode_escape c ++ quote_units rest
                  else if is_trailing_surrogate c
                       then unicode_escape c ++ quote_units rest
                  else c :: quote_units rest) ++ t) = json_string_chars t).
  { intros c rest IH t.
    repeat match goal with
           | |- context [if ?b then _ else _] =>
               destruct b eqn:?; [try (rewrite <- app_assoc, ?json_string_chars_escape;
                                       try apply IH; exact (IH t))|]
           end.
    cbn [app]. rewrite json_string_chars_plain by assumption. apply IH. }
  induction s as [|c|c d rest IH1 IH2] using units_pair_ind; intros t.
  - reflexivity.
  - rewrite quote_units_cons.
    destruct (is_leading_surrogate c) eqn:Hl.
    + specialize (Hstep c [] (fun t => eq_refl) t). rewrite Hl in Hstep.
      cbn [quote_units] in Hstep. rewrite !app_nil_r in Hstep. exact Hstep.
    + specialize (Hstep c [] (fun t => eq_refl) t). rewrite Hl in Hstep. exact Hstep.
  - rewrite quote_units_cons.
    destruct (is_leading_surrogate c) eqn:Hl.
    + destruct (is_trailing_surrogate d) eqn:Ht.
      * unfold is_leading_surrogate, is_trailing_surrogate in Hl, Ht.
        rewrite !andb_true_iff, !Z.leb_le in Hl, Ht.
        repeat match goal with
               | |- context [if ?b then _ else _] =>
                   destruct b eqn:?; [rewrite ?Z.eqb_eq, ?Z.ltb_lt in *; lia|]
               end.
        cbn [app]. rewrite !json_string_chars_plain;
          try apply IH1; try assumption;
          try (apply Z.eqb_neq; lia); try (apply Z.ltb_ge; lia).
      * specialize (Hstep c (d :: rest) IH2 t). rewrite Hl in Hstep. exact Hstep.
    + specialize (Hstep c (d :: rest) IH2 t). rewrite Hl in Hstep. exact Hstep.
Qed.

Lemma quote_units_keys :
  quote_units (lit "name") = lit "name" /\
  quote_units (lit "description") = lit "description" /\
  quote_units (lit "shared") = lit "shared" /\
  quote_units (lit "system_prompt") = lit "system_prompt" /\
  quote_units (lit "task_prompt") = lit "task_prompt".
Proof. repeat split; vm_compute; reflexivity. Qed.

Lemma JSON_stringify_prompt_object (a b c e : jsstring) :
  let member := fun (k : string) (inside : jsstring) =>
                  [34] ++ lit k ++ [34; 58; 34] ++ inside ++ [34] in
  JSON_stringify
    (JObj [ (lit "name", JStr a); (lit "description", JStr b);
            (lit "shared", JBool true);
            (lit "system_prompt", JStr c); (lit "task_prompt", JStr e) ]) =
  Some (lit "{" ++
        join (lit ",")
          [ member "name"%string (quote_units a);
            member "description"%string (quote_units b);
            [34] ++ lit "shared" ++ [34; 58] ++ lit "true";
            member "system_prompt"%string (quote_units c);
            member "task_prompt"%string (quote_units e) ] ++
        lit "}").
Proof.
  intros member. destruct quote_units_keys as (K1 & K2 & K3 & K4 & K5).
  cbn [JSON_stringify flat_map fst snd]. unfold QuoteJSONString.
  rewrite K1, K2, K3, K4, K5. unfold member.
  generalize (quote_units a) (quote_units b) (quote_units c) (quote_units e).
  intros qa qb qc qe. vm_compute. reflexivity.
Qed.

(** The body of a prompt request is an object of five members in a fixed
    order, and the text of the persona name and of the two prompts stays
    inside its own string: whatever these hold (quotes, backslashes, line
    breaks, unpaired surrogates), what is written between the quotes obeys
    the grammar of a JSON string. [createPrompt] and [updatePrompt] send the
    same body. *)
Theorem prompt_request_body_text (personaName systemPrompt taskPrompt : jsstring) :
  let n := quote_units (promptNameFromPersonaName personaName) in
  let d := quote_units (lit "Default prompt for persona " ++ personaName) in
  let s := quote_units systemPrompt in
  let t := quote_units taskPrompt in
  let member := fun (k : string) (inside : jsstring) =>
                  [34] ++ lit k ++ [34; 58; 34] ++ inside ++ [34] in
  let text :=
    lit "{" ++
    join (lit ",")
      [ member "name"%string n;
        member "description"%string d;
        [34] ++ lit "shared" ++ [34; 58] ++ lit "true";
        member "system_prompt"%string s;
        member "task_prompt"%string t ] ++
    lit "}" in
  body (createPrompt_request personaName systemPrompt taskPrompt) = Some text /\
  (forall promptId,
     body (updatePrompt_request promptId personaName systemPrompt taskPrompt)
       = Some text) /\
  json_string_chars n = true /\ json_string_chars d = true /\
  json_string_chars s = true /\ json_string_chars t = true.
Proof.
  intros n d s t member text.
  assert (Hbody : JSON_stringify (prompt_body personaName systemPrompt taskPrompt)
                  = Some text).
  { exact (JSON_stringify_prompt_object _ _ _ _). }
  split; [exact Hbody|]. split; [intros; exact Hbody|].
  assert (Hq : forall x, json_string_chars (quote_units x) = true).
  { intros x. rewrite <- (app_nil_r (quote_units x)).
    apply json_string_chars_quote_units. }
  repeat split; apply Hq.
Qed.

(* ===================================================================== *)
(** ** The persona body on the wire *)
(* ===================================================================== *)

(** An object whose values all have a text is written member by member, in
    the order of its properties. *)
Lemma JSON_stringify_object fields texts :
  Forall2 (fun f kt => fst f = fst kt /\ JSON_stringify (snd f) = Some (snd kt))
          fields texts ->
  JSON_stringify (JObj fields) =
  Some (lit "{" ++
        join (lit ",")
          (map (fun kt => QuoteJSONString (fst kt) ++ lit ":" ++ snd kt) texts) ++
        lit "}").
Proof.
  intros H.
  assert (E : flat_map (fun kv => match JSON_stringify (snd kv) with
                                  | Some t => [QuoteJSONString (fst kv) ++ lit ":" ++ t]
                                  | None => []
                                  end) fields =
              map (fun kt => QuoteJSONString (fst kt) ++ lit ":" ++ snd kt) texts).
  { induction H as [|f kt fields texts [Hk Hv] _ IH]; [reflexivity|].
    cbn [flat_map map]. rewrite Hv, Hk, IH. reflexivity. }
  cbn [JSON_stringify]. rewrite E. reflexivity.
Qed.

Lemma JSON_stringify_numbers ids :
  JSON_stringify (JArr (map JNum ids)) =
  Some (lit "[" ++ join (lit ",") (map Number_toString ids) ++ lit "]").
Proof.
  cbn [JSON_stringify]. rewrite map_map. reflexivity.
Qed.

Lemma JSON_stringify_nullable {A} (inj : A -> jsval) (text : A -> jsstring) x :
  (forall a, JSON_stringify (inj a) = Some (text a)) ->
  JSON_stringify (nullable inj x) = Some (or_null text x).
Proof. intros H. destruct x; [apply H | reflexivity]. Qed.

Lemma quoted_member (k : string) (text : jsstring) :
  quote_units (lit k) = lit k ->
  QuoteJSONString (lit k) ++ lit ":" ++ text = member k text.
Proof.
  intros H. unfold QuoteJSONString, member. rewrite H.
  rewrite <- !(app_assoc [34]). rewrite <- (app_assoc (lit k)). reflexivity.
Qed.

(** The body of a persona request is an object of ten members, always all
    ten and always in the same order: the name and description of the
    request, [shared] true, the three nullable settings written as their
    value or [null], the two constants, the one-element [prompt_ids] (an
    [undefined] id being written [null]) and the document set ids in the
    order given. The system and task prompts, the persona id and
    [existingPromptId] are not part of it. *)
Theorem persona_request_body_text (r : AnyRequest) (promptId : jsval) :
  JSON_stringify (buildPersonaAPIBody r promptId) =
  Some (lit "{" ++
        join (lit ",")
          [ member "name" (QuoteJSONString (name r));
            member "description" (QuoteJSONString (description r));
            member "shared" (lit "true");
            member "num_chunks" (or_null Number_toString (num_chunks r));
            member "llm_relevance_filter"
              (or_null Boolean_toString (llm_relevance_filter r));
            member "llm_filter_extraction" (lit "false");
            member "recency_bias" ([34] ++ lit "base_decay" ++ [34]);
            member "prompt_ids" (lit "[" ++ element_text promptId ++ lit "]");
            member "document_set_ids"
              (lit "[" ++ join (lit ",") (map Number_toString (document_set_ids r)) ++
               lit "]");
            member "llm_model_version_override"
              (or_null QuoteJSONString (llm_model_version_override r)) ] ++
        lit "}") /\
  (forall rc p, body (createPersona_request rc p) =
                JSON_stringify (buildPersonaAPIBody (inl rc) p)) /\
  (forall ru p, body (updatePersona_request ru p) =
                JSON_stringify (buildPersonaAPIBody (inr ru) p)).
Proof.
  split; [|split; reflexivity].
  unfold buildPersonaAPIBody.
  rewrite (JSON_stringify_object _
    [ (lit "name", QuoteJSONString (name r));
      (lit "description", QuoteJSONString (description r));
      (lit "shared", lit "true");
      (lit "num_chunks", or_null Number_toString (num_chunks r));
      (lit "llm_relevance_filter", or_null Boolean_toString (llm_relevance_filter r));
      (lit "llm_filter_extraction", lit "false");
      (lit "recency_bias", [34] ++ lit "base_decay" ++ [34]);
      (lit "prompt_ids", lit "[" ++ element_text promptId ++ lit "]");
      (lit "document_set_ids",
         lit "[" ++ join (lit ",") (map Number_toString (document_set_ids r)) ++
         lit "]");
      (lit "llm_model_version_override",
         or_null QuoteJSONString (llm_model_version_override r)) ]).
  - cbn [map fst snd].
    rewrite !quoted_member by (vm_compute; reflexivity). reflexivity.
  - repeat (apply Forall2_cons || apply Forall2_nil); cbn [fst snd];
      (split; [reflexivity|]).
    + reflexivity.
    + reflexivity.
    + reflexivity.
    + apply JSON_stringify_nullable. reflexivity.
    + apply JSON_stringify_nullable. reflexivity.
    + reflexivity.
    + vm_compute. reflexivity.
    + reflexivity.
    + apply JSON_stringify_numbers.
    + apply JSON_stringify_nullable. reflexivity.
Qed.
